(** * Market data acquisition and normalisation of the crypto dashboard

    A shallow embedding of [dash.py]: the two fetch operations
    ([fetch_live_prices], [fetch_historical_market_chart]), the sparkline
    expression, the plot helper [build_sparkline], and the memoizing
    decorator that wraps both fetches.

    Conventions of the embedding.
    - Python [float] and [int] are both exact rationals ([Q]): rounding,
      overflow and the non-finite floats are outside the model.  Numeric
      equality is [Qeq] ([==]), as Python's [==] on numbers.
    - A raised exception is a value of [exn]; code under [try] lives in the
      error monad [result], and the bare [except:] collapses every [Err].
    - A pandas [DataFrame] is the list of its rows; the empty frame
      [pd.DataFrame()] is [[]]. *)

From Stdlib Require Import QArith Qminmax Lqa Lia List Sorted Ascii String.
From stdpp Require Import gmap strings pretty.
Import ListNotations.

Local Open Scope Q_scope.

(** ** Python values and exceptions *)

Module Py.

Inductive exn : Set :=
| TypeError
| ValueError
| AttributeError
| ZeroDivisionError
| RequestException
| HTTPError
| JSONDecodeError.

Inductive result (A : Type) : Type :=
| Ok (a : A)
| Err (e : exn).
Arguments Ok {A} a.
Arguments Err {A} e.

Definition bind {A B} (m : result A) (k : A -> result B) : result B :=
  match m with
  | Ok a => k a
  | Err e => Err e
  end.

(** [for] loop and list comprehension over a body that may raise: the
    first exception stops the iteration. *)
Fixpoint for_each {A B} (body : A -> result B) (xs : list A) : result (list B) :=
  match xs with
  | [] => Ok []
  | x :: rest =>
      bind (body x) (fun y =>
      bind (for_each body rest) (fun ys => Ok (y :: ys)))
  end.

(** What [json.loads] produces.  A dict is kept as the list of its items in
    iteration order. *)
#[local] Unset Elimination Schemes.
Inductive value : Type :=
| VNone
| VBool (b : bool)
| VNum (q : Q)
| VStr (s : string)
| VList (xs : list value)
| VDict (items : list (string * value)).
#[local] Set Elimination Schemes.

(** [bool(v)]: the falsy values are [None], [False], zero and the empty
    containers. *)
Definition truthy (v : value) : bool :=
  match v with
  | VNone => false
  | VBool b => b
  | VNum q => negb (Qeq_bool q 0)
  | VStr s => negb (String.eqb s EmptyString)
  | VList xs => match xs with [] => false | _ => true end
  | VDict items => match items with [] => false | _ => true end
  end.

(** [a or b] *)
Definition or_ (a b : value) : value := if truthy a then a else b.

(** The number a value stands for in arithmetic ([bool] is a subclass of
    [int]); [None] for the operand types arithmetic rejects. *)
Definition as_number (v : value) : option Q :=
  match v with
  | VNum q => Some q
  | VBool true => Some 1
  | VBool false => Some 0
  | _ => None
  end.

(** [a / b] with a numeric right operand: [TypeError] for a left operand
    that is no number, [ZeroDivisionError] for a zero divisor. *)
Definition truediv (a : value) (b : Q) : result Q :=
  match as_number a with
  | None => Err TypeError
  | Some x => if Qeq_bool b 0 then Err ZeroDivisionError else Ok (x / b)
  end.

Fixpoint dict_lookup (items : list (string * value)) (k : string) : option value :=
  match items with
  | [] => None
  | (k', v) :: rest => if String.eqb k' k then Some v else dict_lookup rest k
  end.

(** [d.get(k, default)]; only a dict has the method. *)
Definition get (d : value) (k : string) (default : value) : result value :=
  match d with
  | VDict items =>
      Ok (match dict_lookup items k with Some v => v | None => default end)
  | _ => Err AttributeError
  end.

(** [d.items()] *)
Definition items (d : value) : result (list (string * value)) :=
  match d with
  | VDict l => Ok l
  | _ => Err AttributeError
  end.

Definition upper_ascii (c : ascii) : ascii :=
  let n := nat_of_ascii c in
  if (Nat.leb 97 n && Nat.leb n 122)%bool then ascii_of_nat (n - 32) else c.

(** [s.upper()] on an ASCII string. *)
Fixpoint upper (s : string) : string :=
  match s with
  | EmptyString => EmptyString
  | String c rest => String (upper_ascii c) (upper rest)
  end.

End Py.

Notation "'let!' x ':=' m 'in' k" := (Py.bind m (fun x => k))
  (at level 10, x name, m at level 200, k at level 200,
   format "'[v' 'let!'  x  ':='  m  'in' '/' k ']'").

Import Py.

(** ** The HTTP client *)

Module Http.

(** A received response: its status code and what [r.json()] gives
    ([JSONDecodeError] for a body that is no JSON). *)
Record response (B : Type) : Type := { status_code : Z; json : result B }.
Arguments status_code {B} r.
Arguments json {B} r.

(** [r.raise_for_status()]: raises for the client and server error classes. *)
Definition raise_for_status {B} (r : response B) : result unit :=
  if ((400 <=? status_code r)%Z && (status_code r <? 600)%Z)%bool
  then Err HTTPError else Ok tt.

(** [r.ok] of the requests library. *)
Definition ok {B} (r : response B) : bool :=
  match raise_for_status r with Ok _ => true | Err _ => false end.

(** [requests.get(url, params=params, timeout=t)]: what the network answers
    to a request, or the exception of a transport failure. *)
Definition client (B : Type) : Type :=
  string -> list (string * string) -> Z -> result (response B).

End Http.

(** [sep.join(parts)] *)
Fixpoint join (sep : string) (parts : list string) : string :=
  match parts with
  | [] => EmptyString
  | [p] => p
  | p :: rest => String.append p (String.append sep (join sep rest))
  end.

(** Line 14. *)
Definition COIN_IDS : list string :=
  [ "bitcoin"; "ethereum"; "solana"; "sui"; "pyth-network"; "cardano";
    "polkadot" ]%string.

(** ** Live snapshot *)

Module Live.

Record row : Type := {
  id : string;
  ticker : string;
  last_price : Q;
  change_pct : Q;
  volume : Q;
  market_cap : Q;
  open : list Q
}.

(** The table handed to the UI, one row per instrument;
    [pd.DataFrame()] is [[]]. *)
Definition DataFrame : Type := list row.

Definition url : string := "https://api.coingecko.com/api/v3/simple/price".

Definition params (coin_ids : list string) : list (string * string) :=
  [ ("ids", join "," coin_ids);
    ("vs_currencies", "usd");
    ("include_24hr_change", "true");
    ("include_24hr_vol", "true");
    ("include_market_cap", "true") ]%string.

(** [range(6, -1, -1)] *)
Definition steps : list Z := [6; 5; 4; 3; 2; 1; 0]%Z.

(** Line 51:
    [[last_price / (1 + change_pct/100 * (i/6)) for i in range(6, -1, -1)]] *)
Definition point (last_price change_pct : value) (i : Z) : result Q :=
  let! c := truediv change_pct 100 in
  truediv last_price (1 + c * (inject_Z i / 6)).

Definition sparkline (last_price change_pct : value) : result (list Q) :=
  for_each (point last_price change_pct) steps.

Section Rows.

(** [float(s)] of a string: [None] when it raises [ValueError]. *)
Variable str_to_float : string -> option Q.

(** [float(v)] *)
Definition float (v : value) : result Q :=
  match v with
  | VNum q => Ok q
  | VBool true => Ok 1
  | VBool false => Ok 0
  | VStr s => match str_to_float s with Some q => Ok q | None => Err ValueError end
  | VNone | VList _ | VDict _ => Err TypeError
  end.

(** The body of the loop over [live.items()], up to the dict appended to
    [data]. *)
Definition entry (ticker : string) (metrics : value) : result row :=
  let! last_price := get metrics "usd" (VNum 0) in
  let! change := get metrics "usd_24h_change" (VNum 0) in
  let change_pct := or_ change (VNum 0) in
  let! sparkline := sparkline last_price change_pct in
  let! last_price' := float last_price in
  let! change_pct' := float change_pct in
  let! vol := get metrics "usd_24h_vol" (VNum 0) in
  let! volume := float (or_ vol (VNum 0)) in
  let! cap := get metrics "usd_market_cap" (VNum 0) in
  let! market_cap := float (or_ cap (VNum 0)) in
  Ok {| id := ticker;
        ticker := upper ticker;
        last_price := last_price';
        change_pct := change_pct';
        volume := volume;
        market_cap := market_cap;
        open := sparkline |}.

(** [for ticker, metrics in live.items(): ... data.append({...})] *)
Fixpoint loop (items : list (string * value)) (data : list row) : result (list row) :=
  match items with
  | [] => Ok data
  | (ticker, metrics) :: rest =>
      let! r := entry ticker metrics in
      loop rest (data ++ [r])
  end.

Variable requests_get : Http.client value.

(** The body of the [try]. *)
Definition fetch_live_prices_try (coin_ids : list string) : result DataFrame :=
  let! r := requests_get url (params coin_ids) 10%Z in
  let! _ := Http.raise_for_status r in
  let! live := Http.json r in
  let! items := items live in
  let! data := loop items [] in
  Ok data.

(** [fetch_live_prices]: whatever the [try] raises, the bare [except]
    returns the empty frame. *)
Definition fetch_live_prices (coin_ids : list string) : DataFrame :=
  match fetch_live_prices_try coin_ids with
  | Ok df => df
  | Err _ => []
  end.

End Rows.

End Live.

(** ** Historical chart *)

Module Hist.

(** One [[ts, value]] pair of a series of the payload: the timestamp in
    milliseconds and the sampled value, [None] for a JSON [null] (NaN in the
    frame). *)
Definition sample : Type := (Z * option Q)%type.

(** The decoded body: a JSON object with its two series of timestamped
    samples (a key may be absent), or any JSON value that is no object.
    Series whose entries have another shape are outside the model. *)
Inductive payload : Type :=
| NotADict
| Chart (prices total_volumes : option (list sample)).

(** [data.get("prices", [])] *)
Definition get_prices (data : payload) : result (list sample) :=
  match data with
  | NotADict => Err AttributeError
  | Chart p _ => Ok (match p with Some s => s | None => [] end)
  end.

(** [data.get("total_volumes", [])] *)
Definition get_total_volumes (data : payload) : result (list sample) :=
  match data with
  | NotADict => Err AttributeError
  | Chart _ v => Ok (match v with Some s => s | None => [] end)
  end.

(** [frame.empty] *)
Definition empty {A} (frame : list A) : bool :=
  match frame with [] => true | _ :: _ => false end.

(** [pd.to_datetime(ts, unit="ms")]: the instant, in milliseconds. *)
Definition to_datetime (ts : Z) : Z := ts.

(** A row of [prices.merge(vols, on="date")]. *)
Record merged : Type := { date : Z; m_close : option Q; m_volume : option Q }.

(** The inner join on [date], as pandas documents it: the rows follow the
    order of the left frame, each left row paired with its matches of the
    right frame in their order. *)
Definition merge (prices vols : list sample) : list merged :=
  flat_map (fun p =>
    map (fun v => {| date := to_datetime (fst p);
                     m_close := snd p;
                     m_volume := snd v |})
        (List.filter (fun v => Z.eqb (to_datetime (fst v)) (to_datetime (fst p)))
                     vols))
    prices.

(** [column.shift(1)] *)
Definition shift (column : list (option Q)) : list (option Q) :=
  firstn (length column) (None :: column).

(** [column.fillna(other)] *)
Fixpoint fillna (column other : list (option Q)) : list (option Q) :=
  match column, other with
  | x :: xs, y :: ys =>
      (match x with Some _ => x | None => y end) :: fillna xs ys
  | _, _ => []
  end.

(** Row-wise [max] and [min] of two columns; a NaN is skipped. *)
Definition nanmax (a b : option Q) : option Q :=
  match a, b with
  | Some x, Some y => Some (Qmax x y)
  | Some x, None => Some x
  | None, y => y
  end.

Definition nanmin (a b : option Q) : option Q :=
  match a, b with
  | Some x, Some y => Some (Qmin x y)
  | Some x, None => Some x
  | None, y => y
  end.

Fixpoint rowwise (f : option Q -> option Q -> option Q)
    (xs ys : list (option Q)) : list (option Q) :=
  match xs, ys with
  | x :: xs', y :: ys' => f x y :: rowwise f xs' ys'
  | _, _ => []
  end.

(** A row of the returned frame: its index label and the five selected
    columns. *)
Record bar : Type := {
  index : nat;
  open : Q;
  high : Q;
  low : Q;
  close : Q;
  volume : Q
}.

Definition DataFrame : Type := list bar.

(** The row labelled [i], unless one of its cells is NaN. *)
Definition complete (i : nat) (o h l c v : option Q) : option bar :=
  match o, h, l, c, v with
  | Some o', Some h', Some l', Some c', Some v' =>
      Some {| index := i; open := o'; high := h'; low := l';
              close := c'; volume := v' |}
  | _, _, _, _, _ => None
  end.

(** [df[["open","high","low","close","volume"]].dropna()] on a frame whose
    index starts at [i]: the surviving rows keep their labels. *)
Fixpoint dropna (i : nat) (opens highs lows closes volumes : list (option Q))
    : DataFrame :=
  match opens, highs, lows, closes, volumes with
  | o :: os, h :: hs, l :: ls, c :: cs, v :: vs =>
      match complete i o h l c v with
      | Some b => b :: dropna (S i) os hs ls cs vs
      | None => dropna (S i) os hs ls cs vs
      end
  | _, _, _, _, _ => []
  end.

(** Lines 77 to 85.  Line 84 leaves the index as it is: [df.index] is never
    [None]. *)
Definition ohlc (prices vols : list sample) : DataFrame :=
  let df := merge prices vols in
  let closes := map m_close df in
  let opens := fillna (shift closes) closes in
  let highs := rowwise nanmax opens closes in
  let lows := rowwise nanmin opens closes in
  dropna 0 opens highs lows closes (map m_volume df).

Definition url (coin_id : string) : string :=
  String.append "https://api.coingecko.com/api/v3/coins/"
    (String.append coin_id "/market_chart").

Definition params (days : string) : list (string * string) :=
  [ ("vs_currency", "usd"); ("days", days) ]%string.

Section Fetch.

Variable requests_get : Http.client payload.

(** The body of the [try]. *)
Definition fetch_historical_market_chart_try (coin_id days : string)
    : result DataFrame :=
  let! r := requests_get (url coin_id) (params days) 10%Z in
  let! _ := Http.raise_for_status r in
  let! data := Http.json r in
  let! prices := get_prices data in
  let! vols := get_total_volumes data in
  if (empty prices || empty vols)%bool then Ok []
  else Ok (ohlc prices vols).

Definition fetch_historical_market_chart (coin_id days : string) : DataFrame :=
  match fetch_historical_market_chart_try coin_id days with
  | Ok df => df
  | Err _ => []
  end.

End Fetch.

End Hist.

(** ** Plot helper *)

Module Plot.

(** What [build_sparkline] may be handed: a Python list, or another iterable
    object given by the attribute names [hasattr] finds on it. *)
Inductive series : Type :=
| PyList (values : list Q)
| PyObject (attrs : list string) (values : list Q).

(** The attributes of a [list]. *)
Definition list_attrs : list string :=
  [ "append"; "clear"; "copy"; "count"; "extend"; "index"; "insert"; "pop";
    "remove"; "reverse"; "sort";
    "__add__"; "__class__"; "__class_getitem__"; "__contains__";
    "__delattr__"; "__delitem__"; "__dir__"; "__doc__"; "__eq__";
    "__format__"; "__ge__"; "__getattribute__"; "__getitem__"; "__gt__";
    "__hash__"; "__iadd__"; "__imul__"; "__init__"; "__init_subclass__";
    "__iter__"; "__le__"; "__len__"; "__lt__"; "__mul__"; "__ne__";
    "__new__"; "__reduce__"; "__reduce_ex__"; "__repr__"; "__reversed__";
    "__rmul__"; "__setattr__"; "__setitem__"; "__sizeof__"; "__str__";
    "__subclasshook__" ]%string.

Definition hasattr (s : series) (name : string) : bool :=
  match s with
  | PyList _ => existsb (String.eqb name) list_attrs
  | PyObject attrs _ => existsb (String.eqb name) attrs
  end.

(** [list(series)] *)
Definition to_list (s : series) : list Q :=
  match s with
  | PyList values => values
  | PyObject _ values => values
  end.

(** The trace and layout of the returned figure. *)
Record figure : Type := {
  y : list Q;
  mode : string;
  fill : string;
  line_color : string;
  height : Z
}.

Definition build_sparkline (s : series) : figure :=
  let y0 := if hasattr s "iter" then to_list s else [0; 0] in
  let y1 := if (length y0 <? 2)%nat then [0; 0] else y0 in
  {| y := y1; mode := "lines"; fill := "tozeroy"; line_color := "lime";
     height := 60 |}.

End Plot.

(** ** Cache layer *)

Module Cache.

Section CacheData.

Context {K V : Type} `{Countable K}.

(** The time-to-live of the decorated function, and what a run of the
    function returns when it is started at a given time. *)
Variable ttl : Q.
Variable func : Q -> K -> V.

(** An entry holds the returned value and the time it was computed at;
    [runs] logs every run of the decorated function. *)
Record state : Type := {
  store : gmap K (V * Q);
  runs : list (Q * K)
}.

Definition init : state := {| store := ∅; runs := [] |}.

(** Modelled from the spec: an entry is served while it is younger than the
    time-to-live. *)
Definition fresh (now : Q) (e : V * Q) : bool :=
  negb (Qle_bool ttl (now - snd e)).

(** Modelled from the spec: a miss runs the function, stores the result
    with the time of the run and logs the run. *)
Definition miss (args : K) (now : Q) (st : state) : V * state :=
  let v := func now args in
  (v, {| store := <[args := (v, now)]> (store st);
         runs := (now, args) :: runs st |}).

(** Modelled from the spec: the memoizing decorator [st.cache_data(ttl=...)]
    of the Streamlit library, which is not part of the sources.  A call at
    time [now] with arguments [args] returns the stored value of a fresh
    entry without running the function; otherwise it runs the function and
    replaces the entry. *)
Definition call (args : K) (now : Q) (st : state) : V * state :=
  match store st !! args with
  | Some e => if fresh now e then (fst e, st) else miss args now st
  | None => miss args now st
  end.

End CacheData.

(** Line 30: [@st.cache_data(ttl=60)] on [fetch_live_prices]. *)
Definition fetch_live_prices (str_to_float : string -> option Q)
    (network : Q -> Http.client value) :=
  call 60 (fun now coin_ids =>
    Live.fetch_live_prices str_to_float (network now) coin_ids).

(** Line 65: [@st.cache_data(ttl=3600)] on [fetch_historical_market_chart];
    the key is the pair of its arguments. *)
Definition fetch_historical_market_chart
    (network : Q -> Http.client Hist.payload) :=
  call 3600 (fun now (args : string * string) =>
    Hist.fetch_historical_market_chart (network now) (fst args) (snd args)).

End Cache.

(** ** The specification's wording, for comparison with the code *)

Module Spec.

(** Section 4.4: for step [i] counting down from 6 to 0, emit
    [last_price / (1 + change_pct/100 * (i/6))]. *)
Definition synthesize_sparkline (last_price change_pct : Q) : list Q :=
  map (fun i : Z => last_price / (1 + change_pct / 100 * (inject_Z i / 6)))
      [6; 5; 4; 3; 2; 1; 0]%Z.

(** The denominators of the seven steps. *)
Definition denominators (change_pct : Q) : list Q :=
  map (fun i : Z => 1 + change_pct / 100 * (inject_Z i / 6))
      [6; 5; 4; 3; 2; 1; 0]%Z.

(** A sequence that never decreases towards its end. *)
Fixpoint nondecreasing (xs : list Q) : Prop :=
  match xs with
  | x :: (y :: _) as rest => x <= y /\ nondecreasing rest
  | _ => True
  end.

(** Section 3, row by row over the joined rows: [open] is the close of the
    preceding row [prev], or the row's own close when there is none. *)
Definition fill (prev own : option Q) : option Q :=
  match prev with Some _ => prev | None => own end.

Fixpoint bars (i : nat) (prev : option Q) (rows : list Hist.merged)
    : Hist.DataFrame :=
  match rows with
  | [] => []
  | r :: rest =>
      let c := Hist.m_close r in
      let o := fill prev c in
      match Hist.complete i o (Hist.nanmax o c) (Hist.nanmin o c) c
              (Hist.m_volume r) with
      | Some b => b :: bars (S i) c rest
      | None => bars (S i) c rest
      end
  end.

(** The close of the row before row [i] of a joined frame, [first] standing
    before row 0. *)
Definition before (first : option Q) (df : list Hist.merged) (i : nat)
    : option Q :=
  match i with
  | O => first
  | S j => match df !! j with Some r => Hist.m_close r | None => None end
  end.

Definition prev_close (df : list Hist.merged) (i : nat) : option Q :=
  before None df i.

(** Section 3 read on the returned bars: [open] is the close of the bar
    before ([prev]), the first bar opens at its own close, and [high] and
    [low] are the larger and the smaller of [open] and [close]. *)
Fixpoint reconstructed (prev : option Q) (frame : list Hist.bar) : Prop :=
  match frame with
  | [] => True
  | b :: rest =>
      Hist.open b == match prev with Some c => c | None => Hist.close b end
      /\ Hist.high b == Qmax (Hist.open b) (Hist.close b)
      /\ Hist.low b == Qmin (Hist.open b) (Hist.close b)
      /\ reconstructed (Some (Hist.close b)) rest
  end.

(** No sample of the series is [null]. *)
Definition no_null (series : list Hist.sample) : Prop :=
  forall s, In s series -> snd s <> None.

(** Every timestamp of the series moved by [d] milliseconds. *)
Definition moved (d : Z) (series : list Hist.sample) : list Hist.sample :=
  map (fun s => ((fst s + d)%Z, snd s)) series.

(** Section 4.2: what it means for [cached] to memoize [func] per argument
    tuple with time-to-live [ttl].  An entry younger than [ttl] is returned
    as it is, without a run; two calls within the window, the first of which
    finds no fresh entry, run the function exactly once and return the same
    value; a call that finds an expired entry runs the function and replaces
    the entry; the entries of other argument tuples are left alone. *)
Definition memoized {K V : Type} `{Countable K} (ttl : Q) (func : Q -> K -> V)
    (cached : K -> Q -> @Cache.state K V _ _ -> V * @Cache.state K V _ _)
    : Prop :=
  (forall st args now v t0,
      Cache.store st !! args = Some (v, t0) ->
      now - t0 < ttl ->
      cached args now st = (v, st))
  /\ (forall st args t1 t2,
      (forall e, Cache.store st !! args = Some e -> ttl <= t1 - snd e) ->
      t1 <= t2 -> t2 - t1 < ttl ->
      let first := cached args t1 st in
      let second := cached args t2 (snd first) in
      fst first = func t1 args
      /\ fst second = fst first
      /\ Cache.runs (snd second) = (t1, args) :: Cache.runs st)
  /\ (forall st args now v t0,
      Cache.store st !! args = Some (v, t0) ->
      ttl <= now - t0 ->
      let fetched := cached args now st in
      fst fetched = func now args
      /\ Cache.runs (snd fetched) = (now, args) :: Cache.runs st
      /\ Cache.store (snd fetched) !! args = Some (func now args, now))
  /\ (forall st args other now,
      args <> other ->
      Cache.store (snd (cached args now st)) !! other
      = Cache.store st !! other).

End Spec.

(** ** Sample inputs *)

Module Sample.

Local Open Scope string_scope.

(** A [float] that accepts no string. *)
Definition no_float : string -> option Q := fun _ => None.

(** A network that answers every request with status 200 and the given
    decoded body. *)
Definition answers {B} (body : B) : Http.client B :=
  fun _ _ _ => Ok {| Http.status_code := 200; Http.json := Ok body |}.

(** A network that answers with the given status and body. *)
Definition status {B} (code : Z) (body : result B) : Http.client B :=
  fun _ _ _ => Ok {| Http.status_code := code; Http.json := body |}.

(** A network that is down. *)
Definition down {B} : Http.client B := fun _ _ _ => Err RequestException.

Definition bitcoin : value :=
  VDict [ ("usd", VNum 50000); ("usd_24h_change", VNum (5 # 2));
          ("usd_24h_vol", VNum 1000); ("usd_market_cap", VNum 900000) ].

(** An instrument that lost all of its value in 24 hours. *)
Definition wiped_out : value :=
  VDict [ ("usd", VNum (1 # 10000)); ("usd_24h_change", VNum (-100));
          ("usd_24h_vol", VNum 1000); ("usd_market_cap", VNum 0) ].

(** An instrument whose price is [null]. *)
Definition null_price : value :=
  VDict [ ("usd", VNone); ("usd_24h_change", VNum (3 # 2));
          ("usd_24h_vol", VNum 10); ("usd_market_cap", VNum 20) ].

(** An instrument whose other three fields are [null] or absent. *)
Definition null_change : value :=
  VDict [ ("usd", VNum 7); ("usd_24h_change", VNone); ("usd_24h_vol", VNone) ].

(** The series of the join example of the specification, with
    [t1 = 1000], [t2 = 2000], [t3 = 3000]. *)
Definition prices_12 : list Hist.sample :=
  [ (1000%Z, Some 10); (2000%Z, Some 20) ].

Definition volumes_13 : list Hist.sample :=
  [ (1000%Z, Some 5); (3000%Z, Some 9) ].

(** Three matching samples, the second volume [null]. *)
Definition prices_123 : list Hist.sample :=
  [ (1000%Z, Some 10); (2000%Z, Some 20); (3000%Z, Some 30) ].

Definition volumes_1n3 : list Hist.sample :=
  [ (1000%Z, Some 5); (2000%Z, None); (3000%Z, Some 7) ].

Definition chart (prices vols : list Hist.sample) : Hist.payload :=
  Hist.Chart (Some prices) (Some vols).

(** A network whose answer to the snapshot request never changes. *)
Definition live_network : Q -> Http.client value :=
  fun _ => answers (VDict [("bitcoin", bitcoin)]).

Definition hist_network : Q -> Http.client Hist.payload :=
  fun _ => answers (chart prices_12 volumes_13).

(** One matching sample, at an instant of November 2023. *)
Definition one_price : list Hist.sample := [ (1700000000000%Z, Some 10) ].

Definition one_volume : list Hist.sample := [ (1700000000000%Z, Some 5) ].

End Sample.

(** ** Utilities *)

(** Lines 19 to 25, on a finite iterable: [islice(it, n_cols)] takes the
    next [n_cols] items, an empty batch ends the generator, and the list of
    the yielded tuples is returned.  [turns] bounds the turns of the
    [while True] loop. *)
Fixpoint batched_loop {A : Type} (turns : nat) (it : list A) (n_cols : nat)
    : list (list A) :=
  match turns with
  | O => []
  | S turns' =>
      match firstn n_cols it with
      | [] => []
      | x :: batch =>
          (x :: batch) :: batched_loop turns' (skipn n_cols it) n_cols
      end
  end.

(** Every turn but the last consumes an item, so one turn more than there
    are items is enough ([batched_step] below). *)
Definition batched {A : Type} (iterable : list A) (n_cols : nat)
    : list (list A) :=
  batched_loop (S (length iterable)) iterable n_cols.

(** ** Candlestick figure *)

Module Chart.

(** The two traces of the figure: the candlesticks of row 1 and the volume
    bars of row 2, both over [df.index]. *)
Record figure : Type := {
  x : list nat;
  open : list Q;
  high : list Q;
  low : list Q;
  close : list Q;
  bar_x : list nat;
  bar_y : list Q;
  height : Z;
  template : string
}.

Definition build_candlestick_figure (df : Hist.DataFrame) : figure :=
  {| x := map Hist.index df;
     open := map Hist.open df;
     high := map Hist.high df;
     low := map Hist.low df;
     close := map Hist.close df;
     bar_x := map Hist.index df;
     bar_y := map Hist.volume df;
     height := 520;
     template := "plotly_dark" |}.

End Chart.

(** ** UI components *)

Module Ui.

Local Open Scope string_scope.

Inductive plot : Type :=
| Sparkline (fig : Plot.figure)
| Candlestick (fig : Chart.figure).

(** A row of [df.drop(columns=["open"], errors="ignore")]. *)
Record overview_row : Type := {
  o_id : string;
  o_ticker : string;
  o_last_price : Q;
  o_change_pct : Q;
  o_volume : Q;
  o_market_cap : Q
}.

Definition drop_open (r : Live.row) : overview_row :=
  {| o_id := Live.id r; o_ticker := Live.ticker r;
     o_last_price := Live.last_price r; o_change_pct := Live.change_pct r;
     o_volume := Live.volume r; o_market_cap := Live.market_cap r |}.

(** A call of the Streamlit API, with the arguments that vary; [Within i c]
    is the call [c] made under [with] on column [i] of the latest
    [st.columns]. *)
Inductive call : Type :=
| Title (text : string)
| Subheader (text : string)
| Info (text : string)
| Warning (text : string)
| Markdown (text : string)
| Write (text : string)
| Divider
| Metric (label value : string)
| Columns (n : nat)
| ColumnsWeighted (weights : list Q)
| PlotlyChart (figure : plot) (key : string)
| Dataframe (rows : list overview_row)
| Selectbox (label : string) (options : list string)
| Within (column : nat) (c : call).

(** What a component did: the calls it made, and whether it returned or
    stopped on a [KeyError]. *)
Inductive outcome : Type :=
| Done (trace : list call)
| Raised (trace : list call).

(** [d[k] = v] on a dict kept as the list of its items: an existing key
    keeps its place. *)
Fixpoint dict_set (d : list (string * string)) (k v : string)
    : list (string * string) :=
  match d with
  | [] => [(k, v)]
  | (k', v') :: rest =>
      if String.eqb k' k then (k', v) :: rest
      else (k', v') :: dict_set rest k v
  end.

(** [d[k]]; [None] is [KeyError]. *)
Fixpoint dict_item (d : list (string * string)) (k : string) : option string :=
  match d with
  | [] => None
  | (k', v) :: rest => if String.eqb k' k then Some v else dict_item rest k
  end.

(** Line 142:
    [{row["ticker"]: row["id"] for _, row in ticker_df.iterrows()}] *)
Definition ticker_to_id (ticker_df : Live.DataFrame) : list (string * string) :=
  fold_left (fun d row => dict_set d (Live.ticker row) (Live.id row))
            ticker_df [].

Section Components.

(** The two number formats of the f-strings, [{x:.2f}] and [{x:,.2f}]. *)
Variable fmt_2f : Q -> string.
Variable fmt_comma_2f : Q -> string.

(** What [st.selectbox] returns for a label and its options: the choice of
    the user. *)
Variable choice : string -> list string -> option string.

(** The two decorated fetches, as the page calls them. *)
Variable fetch_live_prices : list string -> Live.DataFrame.
Variable fetch_historical_market_chart : string -> string -> Hist.DataFrame.

(** The body of [with col:] for one record, lines 124 to 129. *)
Definition card (rec : Live.row) : list call :=
  let up := Qle_bool 0 (Live.change_pct rec) in
  let arrow := if up then "â–²" else "â–¼" in
  let color := if up then "green" else "red" in
  [ Markdown ("### " ++ Live.ticker rec);
    Markdown ("<span style='color:" ++ color ++ "'>" ++ arrow ++ " "
              ++ fmt_2f (Live.change_pct rec) ++ "%</span>");
    Write ("$" ++ fmt_comma_2f (Live.last_price rec));
    PlotlyChart (Sparkline (Plot.build_sparkline (Plot.PyList (Live.open rec))))
                ("spark_" ++ Live.ticker rec) ].

(** One turn of the loop over the batches, lines 121 to 129:
    [zip(cols, row)] pairs the columns with the records of the batch. *)
Definition watchlist_row (n_cols : nat) (row : list Live.row) : list call :=
  Columns n_cols
  :: flat_map (fun cr => map (Within (fst cr)) (card (snd cr)))
              (combine (seq 0 n_cols) row).

Definition display_watchlist (ticker_df : Live.DataFrame) : list call :=
  Subheader "Watchlist"
  :: if Hist.empty ticker_df then [Info "No live data"]
     else
       let n_cols := 4%nat in
       flat_map (watchlist_row n_cols) (batched ticker_df n_cols).

Definition display_overview (df : Live.DataFrame) : list call :=
  Subheader "Overview Table"
  :: if Hist.empty df then [Info "No data"]
     else [Dataframe (map drop_open df)].

Definition display_symbol_history (ticker_df : Live.DataFrame)
    (history_days : Z) : outcome :=
  if Hist.empty ticker_df
  then Done [Subheader "Symbol History"; Info "No symbols"]
  else
    let ticker_to_id := ticker_to_id ticker_df in
    let options := map fst ticker_to_id in
    let asked := [Subheader "Symbol History";
                  Selectbox "Select Symbol:" options] in
    match choice "Select Symbol:" options with
    | None => Done (asked ++ [Info "Select a symbol"])%list
    | Some selected_ticker =>
        if String.eqb selected_ticker ""
        then Done (asked ++ [Info "Select a symbol"])%list
        else
          match dict_item ticker_to_id selected_ticker with
          | None => Raised asked
          | Some coin_id =>
              let df := fetch_historical_market_chart coin_id
                          (pretty history_days) in
              if Hist.empty df
              then Done (asked ++ [Warning ("No historical data for "
                                            ++ selected_ticker)])%list
              else Done (asked ++
                         [PlotlyChart
                            (Candlestick (Chart.build_candlestick_figure df))
                            ("candlestick_" ++ selected_ticker)])%list
          end
    end.

(** The metrics of the right column, lines 169 to 174. *)
Definition quick_metrics (ticker_df : Live.DataFrame) : list call :=
  Subheader "Quick Metrics"
  :: match ticker_df with
     | [] => []
     | top :: _ =>
         [ Metric "Top Token" (Live.ticker top);
           Metric "Top Price" ("$" ++ fmt_comma_2f (Live.last_price top));
           Metric "Top 24h Change" (fmt_2f (Live.change_pct top) ++ "%") ]
     end.

(** The main flow, lines 158 to 178. *)
Definition main : outcome :=
  let ticker_df := fetch_live_prices COIN_IDS in
  let top := [Title "Crypto Dashboard, Live Prices";
              ColumnsWeighted [5 # 2; 1]] in
  let watch := (display_watchlist ticker_df ++ [Divider])%list in
  match display_symbol_history ticker_df 90 with
  | Raised t => Raised (top ++ map (Within 0) (watch ++ t))%list
  | Done t =>
      Done (top
            ++ map (Within 0) (watch ++ t)
            ++ map (Within 1)
                 (quick_metrics ticker_df ++ [Divider]
                  ++ display_overview ticker_df)
            ++ [Markdown
                  "Data provided by [CoinGecko](https://www.coingecko.com/)"])%list
  end.

End Components.

(** The chart of the card of a record, with its key (line 129). *)
Definition spark_of (rec : Live.row) : plot * string :=
  (Sparkline (Plot.build_sparkline (Plot.PyList (Live.open rec))),
   "spark_" ++ Live.ticker rec).

(** The charts a trace plots, with their keys, in order. *)
Fixpoint chart_of (c : call) : list (plot * string) :=
  match c with
  | PlotlyChart p k => [(p, k)]
  | Within _ c' => chart_of c'
  | _ => []
  end.

Definition charts (trace : list call) : list (plot * string) :=
  flat_map chart_of trace.

Definition trace_of (o : outcome) : list call :=
  match o with Done t => t | Raised t => t end.

(** The column each chart of a trace is drawn in, in order. *)
Definition chart_column (c : call) : list nat :=
  match c with
  | Within i (PlotlyChart _ _) => [i]
  | _ => []
  end.

Definition chart_columns (trace : list call) : list nat :=
  flat_map chart_column trace.

(** The number of [st.columns(n)] calls of a trace. *)
Definition is_columns (c : call) : bool :=
  match c with Columns _ => true | _ => false end.

Definition columns_calls (trace : list call) : nat :=
  length (List.filter is_columns trace).

End Ui.

(** ** Runs of the cache *)

Module Session.

(** The state of the cache after a sequence of calls, each with its
    arguments and the time it is made at, starting from the empty cache. *)
Definition replay {K V : Type} `{Countable K} (ttl : Q) (func : Q -> K -> V)
    (calls : list (K * Q)) : @Cache.state K V _ _ :=
  fold_left (fun st c => snd (Cache.call ttl func (fst c) (snd c) st))
            calls Cache.init.

(** Every entry holds what the function returned at the time recorded with
    it, and that run is in the log. *)
Definition coherent {K V : Type} `{Countable K} (func : Q -> K -> V)
    (st : @Cache.state K V _ _) : Prop :=
  forall k v t,
    Cache.store st !! k = Some (v, t) ->
    v = func t k /\ In (t, k) (Cache.runs st).

End Session.

(** ** Sample inputs of the page *)

Module Demo.

Local Open Scope string_scope.

(** A select box on which the user leaves the first option. *)
Definition first_option : string -> list string -> option string :=
  fun _ options => head options.

(** Number formats that print nothing; the traces below do not depend on
    them. *)
Definition no_format : Q -> string := fun _ => "".

(** A history service that has one fixed chart. *)
Definition history : string -> string -> Hist.DataFrame :=
  fun _ _ => Hist.ohlc Sample.prices_12 Sample.volumes_13.

Definition bitcoin_row : Live.row :=
  {| Live.id := "bitcoin"; Live.ticker := "BITCOIN";
     Live.last_price := 50000; Live.change_pct := 5 # 2;
     Live.volume := 1000; Live.market_cap := 900000;
     Live.open := Spec.synthesize_sparkline 50000 (5 # 2) |}.

End Demo.

(** * Properties *)

(** ** The error monad *)

Lemma bind_ok {A B} (m : result A) (k : A -> result B) (b : B) :
  Py.bind m k = Ok b -> exists a, m = Ok a /\ k a = Ok b.
Proof. destruct m as [a|e]; simpl; [eauto | discriminate]. Qed.

(** Inverts every successful [bind] of hypothesis [H]. *)
Ltac bind_inv H :=
  repeat match type of H with
  | Py.bind _ _ = Ok _ =>
      apply bind_ok in H; destruct H as (? & ? & H)
  end.

Lemma bind_err {A B} (m : result A) (k : A -> result B) (e : exn) :
  m = Err e -> Py.bind m k = Err e.
Proof. intros ->. reflexivity. Qed.

Lemma for_each_ok {A B} (body : A -> result B) (f : A -> B) (xs : list A) :
  (forall x, In x xs -> body x = Ok (f x)) ->
  for_each body xs = Ok (map f xs).
Proof.
  induction xs as [|x xs IH]; intros Hbody; simpl; [reflexivity|].
  rewrite (Hbody x) by (left; reflexivity). simpl.
  rewrite IH by (intros y Hy; apply Hbody; right; exact Hy).
  reflexivity.
Qed.

Lemma for_each_first_raises {A B} (body : A -> result B) x xs e :
  body x = Err e -> for_each body (x :: xs) = Err e.
Proof. intros Hx. simpl. rewrite Hx. reflexivity. Qed.

(** ** Division *)

Lemma truediv_num (x d : Q) :
  truediv (VNum x) d = if Qeq_bool d 0 then Err ZeroDivisionError else Ok (x / d).
Proof. reflexivity. Qed.

Lemma truediv_nonzero (x d : Q) : ~ d == 0 -> truediv (VNum x) d = Ok (x / d).
Proof.
  intros Hd. rewrite truediv_num.
  destruct (Qeq_bool d 0) eqn:E; [|reflexivity].
  apply Qeq_bool_iff in E. contradiction.
Qed.

Lemma truediv_zero (a : value) (d : Q) :
  d == 0 -> exists e, truediv a d = Err e.
Proof.
  intros Hd. unfold truediv. destruct (as_number a); [|eauto].
  apply Qeq_bool_iff in Hd. rewrite Hd. eauto.
Qed.

Lemma truediv_num_zero (x d : Q) :
  d == 0 -> truediv (VNum x) d = Err ZeroDivisionError.
Proof.
  intros Hd. rewrite truediv_num. apply Qeq_bool_iff in Hd. rewrite Hd.
  reflexivity.
Qed.

(** ** Sparkline *)

Lemma point_num (lp cp : Q) (i : Z) :
  Live.point (VNum lp) (VNum cp) i
  = truediv (VNum lp) (1 + cp / 100 * (inject_Z i / 6)).
Proof. reflexivity. Qed.

Lemma denominator_at_6 (cp : Q) :
  cp == -100 -> 1 + cp / 100 * (inject_Z 6 / 6) == 0.
Proof. intros ->. reflexivity. Qed.

Lemma sparkline_ok (lp cp : Q) :
  Forall (fun d => ~ d == 0) (Spec.denominators cp) ->
  Live.sparkline (VNum lp) (VNum cp) = Ok (Spec.synthesize_sparkline lp cp).
Proof.
  intros Hden. unfold Live.sparkline, Spec.synthesize_sparkline, Live.steps.
  apply for_each_ok. intros i Hi. rewrite point_num.
  apply truediv_nonzero.
  unfold Spec.denominators in Hden. rewrite List.Forall_forall in Hden.
  apply Hden. apply (in_map (fun i : Z => 1 + cp / 100 * (inject_Z i / 6))).
  exact Hi.
Qed.

Lemma sparkline_last (lp cp : Q) :
  exists x, last (Spec.synthesize_sparkline lp cp) = Some x /\ x == lp.
Proof.
  eexists. split; [reflexivity|].
  change (inject_Z 0) with 0. field.
Qed.

Lemma flat_denominators : Forall (fun d => ~ d == 0) (Spec.denominators 0).
Proof. repeat constructor; intros H; vm_compute in H; discriminate. Qed.

Lemma sparkline_flat (lp : Q) :
  Forall (fun x => x == lp) (Spec.synthesize_sparkline lp 0).
Proof.
  unfold Spec.synthesize_sparkline. simpl map.
  repeat constructor; match goal with |- _ / ?d == _ =>
    let d' := eval vm_compute in d in change d with d' end; field.
Qed.

Lemma sparkline_raises_at_minus_100 (lp : value) (cp : Q) :
  cp == -100 -> exists e, Live.sparkline lp (VNum cp) = Err e.
Proof.
  intros Hcp. unfold Live.sparkline, Live.steps.
  destruct (truediv_zero lp _ (denominator_at_6 cp Hcp)) as [e He].
  exists e. apply for_each_first_raises. exact He.
Qed.

Lemma sparkline_zero_division (lp cp : Q) :
  cp == -100 -> Live.sparkline (VNum lp) (VNum cp) = Err ZeroDivisionError.
Proof.
  intros Hcp. unfold Live.sparkline, Live.steps.
  apply for_each_first_raises. rewrite point_num.
  apply truediv_num_zero, denominator_at_6, Hcp.
Qed.

Lemma sparkline_null_price (cp : value) :
  Live.sparkline VNone cp = Err TypeError.
Proof.
  unfold Live.sparkline, Live.steps. apply for_each_first_raises.
  unfold Live.point, truediv. destruct (as_number cp); reflexivity.
Qed.

(** ** Rows of the snapshot *)

Section LiveRows.

Variable str_to_float : string -> option Q.

Lemma get_dict (items : list (string * value)) (k : string) (d : value) :
  Py.get (VDict items) k d
  = Ok (match dict_lookup items k with Some v => v | None => d end).
Proof. reflexivity. Qed.

(** A field that is absent or [null] is replaced by the default under
    [or 0]. *)
Lemma or_default (items : list (string * value)) (k : string) :
  dict_lookup items k = None \/ dict_lookup items k = Some VNone ->
  exists v, Py.get (VDict items) k (VNum 0) = Ok v /\ or_ v (VNum 0) = VNum 0.
Proof.
  intros [Hk|Hk]; rewrite get_dict, Hk; eexists; split; reflexivity.
Qed.

Lemma entry_null_price (t : string) (items : list (string * value)) :
  dict_lookup items "usd" = Some VNone ->
  Live.entry str_to_float t (VDict items) = Err TypeError.
Proof.
  intros Husd. unfold Live.entry. rewrite !get_dict, Husd. simpl.
  rewrite sparkline_null_price. reflexivity.
Qed.

Lemma entry_minus_100 (t : string) (items : list (string * value)) (lp cp : Q) :
  dict_lookup items "usd" = Some (VNum lp) ->
  dict_lookup items "usd_24h_change" = Some (VNum cp) ->
  cp == -100 ->
  Live.entry str_to_float t (VDict items) = Err ZeroDivisionError.
Proof.
  intros Husd Hchg Hcp. unfold Live.entry. rewrite !get_dict, Husd, Hchg. simpl.
  assert (Htruthy : or_ (VNum cp) (VNum 0) = VNum cp).
  { unfold or_, truthy. destruct (Qeq_bool cp 0) eqn:E; [|reflexivity].
    apply Qeq_bool_iff in E. rewrite E in Hcp. discriminate Hcp. }
  rewrite Htruthy, (sparkline_zero_division lp cp Hcp). reflexivity.
Qed.

(** A [null] or absent 24h change gives a change of exactly zero in the
    row, whenever the row is built. *)
Lemma entry_change_default (t : string) (items : list (string * value)) (r : Live.row) :
  dict_lookup items "usd_24h_change" = None
  \/ dict_lookup items "usd_24h_change" = Some VNone ->
  Live.entry str_to_float t (VDict items) = Ok r ->
  Live.change_pct r = 0.
Proof.
  intros Hchg Hrow. destruct (or_default _ _ Hchg) as (v & Hget & Hor).
  unfold Live.entry in Hrow. rewrite (get_dict items "usd") in Hrow.
  rewrite Hget in Hrow. simpl in Hrow. rewrite Hor in Hrow.
  bind_inv Hrow.
  injection Hrow as <-. simpl in *. congruence.
Qed.

(** The loop raises as soon as one entry does, whatever was appended to
    [data] before. *)
Lemma loop_raises (items : list (string * value)) (data : list Live.row)
    (t : string) (m : value) (e : exn) :
  In (t, m) items -> Live.entry str_to_float t m = Err e ->
  exists e', Live.loop str_to_float items data = Err e'.
Proof.
  revert data. induction items as [|[t' m'] rest IH]; intros data Hin Hraise.
  - destruct Hin.
  - simpl. destruct (Live.entry str_to_float t' m') as [r|e'] eqn:Hentry.
    + simpl. destruct Hin as [Heq|Hin].
      * injection Heq as -> ->. congruence.
      * apply IH; assumption.
    + exists e'. reflexivity.
Qed.

Variable requests_get : Http.client value.

Lemma fetch_live_prices_swallows (coin_ids : list string) (e : exn) :
  Live.fetch_live_prices_try str_to_float requests_get coin_ids = Err e ->
  Live.fetch_live_prices str_to_float requests_get coin_ids = [].
Proof. unfold Live.fetch_live_prices. intros ->. reflexivity. Qed.

Lemma fetch_live_prices_entry_raises (coin_ids : list string)
    (r : Http.response value) (items : list (string * value))
    (t : string) (m : value) (e : exn) :
  requests_get Live.url (Live.params coin_ids) 10%Z = Ok r ->
  Http.raise_for_status r = Ok tt ->
  Http.json r = Ok (VDict items) ->
  In (t, m) items ->
  Live.entry str_to_float t m = Err e ->
  Live.fetch_live_prices str_to_float requests_get coin_ids = [].
Proof.
  intros Hget Hstatus Hjson Hin Hraise.
  destruct (loop_raises items [] t m e Hin Hraise) as [e' He'].
  apply (fetch_live_prices_swallows coin_ids e').
  unfold Live.fetch_live_prices_try.
  rewrite Hget. simpl. rewrite Hstatus. simpl. rewrite Hjson. simpl.
  rewrite He'. reflexivity.
Qed.

End LiveRows.

(** C4.  Whenever none of the seven denominators is zero, the sparkline of
    line 51 is the sequence the specification describes: seven values,
    [last_price / (1 + change_pct/100 * (i/6))] for [i] from 6 down to 0,
    the last of them equal to [last_price].  For a price of 100 and a change
    of 10 it has seven values that never decrease and ends in 100; for a
    change of 0 it is flat at [last_price]. *)
Theorem sparkline_follows_formula :
  (forall lp cp : Q,
      Forall (fun d => ~ d == 0) (Spec.denominators cp) ->
      Live.sparkline (VNum lp) (VNum cp) = Ok (Spec.synthesize_sparkline lp cp)
      /\ length (Spec.synthesize_sparkline lp cp) = 7%nat
      /\ exists x, last (Spec.synthesize_sparkline lp cp) = Some x /\ x == lp)
  /\ (exists s, Live.sparkline (VNum 100) (VNum 10) = Ok s
        /\ length s = 7%nat
        /\ Spec.nondecreasing s
        /\ exists x, last s = Some x /\ x == 100)
  /\ (forall lp : Q, exists s, Live.sparkline (VNum lp) (VNum 0) = Ok s
        /\ length s = 7%nat
        /\ Forall (fun x => x == lp) s).
Proof.
  split; [|split].
  - intros lp cp Hden. split; [apply sparkline_ok, Hden|].
    split; [reflexivity | apply sparkline_last].
  - eexists. split; [reflexivity|]. split; [reflexivity|]. split.
    + simpl. repeat split; intros H; vm_compute in H; discriminate.
    + eexists. split; [reflexivity | reflexivity].
  - intros lp. exists (Spec.synthesize_sparkline lp 0).
    split; [apply sparkline_ok, flat_denominators|].
    split; [reflexivity | apply sparkline_flat].
Qed.

Lemma sparkline_follows_formula_witness :
  Forall (fun d => ~ d == 0) (Spec.denominators 10)
  /\ Live.sparkline (VNum 100) (VNum 10) = Ok (Spec.synthesize_sparkline 100 10).
Proof.
  assert (Hden : Forall (fun d => ~ d == 0) (Spec.denominators 10)).
  { repeat constructor; intros H; vm_compute in H; discriminate. }
  split; [exact Hden|].
  exact (proj1 (proj1 sparkline_follows_formula 100 10 Hden)).
Defined.

(** C1 (the code leaves the division unguarded).  With a 24h change of
    -100 the denominator of the first step is zero, the sparkline expression
    raises [ZeroDivisionError] for every price, and the snapshot that
    contains such an instrument comes back empty. *)
Theorem sparkline_unguarded_at_minus_100 :
  (forall lp cp : Q,
      cp == -100 -> Live.sparkline (VNum lp) (VNum cp) = Err ZeroDivisionError)
  /\ (forall (lp : value) (cp : Q),
      cp == -100 -> exists e, Live.sparkline lp (VNum cp) = Err e)
  /\ (forall f, Live.entry f "solana" Sample.wiped_out = Err ZeroDivisionError)
  /\ (forall f,
      Live.fetch_live_prices f
        (Sample.answers
           (VDict [("bitcoin", Sample.bitcoin); ("solana", Sample.wiped_out)]%string))
        COIN_IDS = []).
Proof.
  split; [exact sparkline_zero_division|].
  split; [exact sparkline_raises_at_minus_100|].
  split; intros f; reflexivity.
Qed.

Lemma sparkline_unguarded_at_minus_100_witness :
  -100 == -100
  /\ Live.sparkline (VNum 50000) (VNum (-100)) = Err ZeroDivisionError.
Proof.
  split; [reflexivity|].
  apply (proj1 sparkline_unguarded_at_minus_100 50000 (-100)). reflexivity.
Defined.

(** C5 (the price lacks the [or 0] of its sibling fields).  A [null] price
    is not replaced by 0: the entry raises [TypeError] and the whole
    snapshot comes back empty, whereas a [null] or absent change, volume or
    market cap does become 0 in the row. *)
Theorem null_price_not_defaulted :
  (forall f t, Live.entry f t Sample.null_price = Err TypeError)
  /\ (forall f,
      Live.fetch_live_prices f
        (Sample.answers (VDict [("bitcoin", Sample.null_price)]%string))
        ["bitcoin"%string] = [])
  /\ (forall f t, exists r,
      Live.entry f t Sample.null_change = Ok r
      /\ Live.last_price r = 7 /\ Live.change_pct r = 0
      /\ Live.volume r = 0 /\ Live.market_cap r = 0).
Proof.
  split; [intros f t; apply entry_null_price; reflexivity|].
  split; [intros f; reflexivity|].
  intros f t. eexists. split; [reflexivity|]. repeat split.
Qed.

(** C9.  The snapshot is all or nothing: when the response is accepted and
    decodes to an object, and the processing of one of its entries raises,
    [fetch_live_prices] returns the empty frame, whatever the other entries
    are.  A [null] price raises, and so does a change of -100. *)
Theorem snapshot_all_or_nothing :
  forall (f : string -> option Q) (requests_get : Http.client value)
         (coin_ids : list string) (r : Http.response value)
         (items : list (string * value)),
    requests_get Live.url (Live.params coin_ids) 10%Z = Ok r ->
    Http.raise_for_status r = Ok tt ->
    Http.json r = Ok (VDict items) ->
    (forall t m e,
        In (t, m) items -> Live.entry f t m = Err e ->
        Live.fetch_live_prices f requests_get coin_ids = [])
    /\ (forall t fields,
        In (t, VDict fields) items ->
        dict_lookup fields "usd" = Some VNone ->
        Live.fetch_live_prices f requests_get coin_ids = [])
    /\ (forall t fields lp cp,
        In (t, VDict fields) items ->
        dict_lookup fields "usd" = Some (VNum lp) ->
        dict_lookup fields "usd_24h_change" = Some (VNum cp) ->
        cp == -100 ->
        Live.fetch_live_prices f requests_get coin_ids = []).
Proof.
  intros f requests_get coin_ids r items Hget Hstatus Hjson.
  split; [|split].
  - intros t m e Hin Hraise.
    exact (fetch_live_prices_entry_raises f requests_get coin_ids r items
             t m e Hget Hstatus Hjson Hin Hraise).
  - intros t fields Hin Husd.
    exact (fetch_live_prices_entry_raises f requests_get coin_ids r items
             t _ _ Hget Hstatus Hjson Hin (entry_null_price f t fields Husd)).
  - intros t fields lp cp Hin Husd Hchg Hcp.
    exact (fetch_live_prices_entry_raises f requests_get coin_ids r items
             t _ _ Hget Hstatus Hjson Hin
             (entry_minus_100 f t fields lp cp Husd Hchg Hcp)).
Qed.

Lemma snapshot_all_or_nothing_witness :
  Live.fetch_live_prices Sample.no_float
    (Sample.answers
       (VDict [("bitcoin", Sample.bitcoin); ("solana", Sample.null_price)]%string))
    COIN_IDS = [].
Proof.
  refine (proj1 (snapshot_all_or_nothing Sample.no_float
            (Sample.answers
               (VDict [("bitcoin", Sample.bitcoin);
                       ("solana", Sample.null_price)]%string))
            COIN_IDS
            {| Http.status_code := 200;
               Http.json := Ok (VDict [("bitcoin", Sample.bitcoin);
                                       ("solana", Sample.null_price)]%string) |}
            _ eq_refl eq_refl eq_refl)
          "solana"%string Sample.null_price TypeError _ eq_refl).
  right. left. reflexivity.
Defined.

(** ** The historical frame *)

Lemma shift_cons (p c : option Q) (cs : list (option Q)) :
  firstn (length (c :: cs)) (p :: c :: cs) = p :: firstn (length cs) (c :: cs).
Proof. reflexivity. Qed.

(** The columns computed by [ohlc] agree with the row-by-row description,
    for any value shifted into the first row. *)
Lemma columns_rowwise (rows : list Hist.merged) (i : nat) (p : option Q) :
  let closes := map Hist.m_close rows in
  let opens := Hist.fillna (firstn (length closes) (p :: closes)) closes in
  Hist.dropna i opens (Hist.rowwise Hist.nanmax opens closes)
    (Hist.rowwise Hist.nanmin opens closes) closes (map Hist.m_volume rows)
  = Spec.bars i p rows.
Proof.
  revert i p. induction rows as [|r rest IH]; intros i p; [reflexivity|].
  cbn [map]. rewrite shift_cons. cbn [Hist.fillna Hist.rowwise Hist.dropna Spec.bars].
  specialize (IH (S i) (Hist.m_close r)). cbn zeta in IH.
  replace (match p with Some _ => p | None => Hist.m_close r end)
    with (Spec.fill p (Hist.m_close r)) by reflexivity.
  rewrite IH. reflexivity.
Qed.

Lemma ohlc_rowwise (prices vols : list Hist.sample) :
  Hist.ohlc prices vols = Spec.bars 0 None (Hist.merge prices vols).
Proof.
  unfold Hist.ohlc, Hist.shift. cbn zeta.
  apply (columns_rowwise (Hist.merge prices vols) 0 None).
Qed.

Lemma complete_some (i : nat) (o h l c v : option Q) (b : Hist.bar) :
  Hist.complete i o h l c v = Some b ->
  Hist.index b = i /\ o = Some (Hist.open b) /\ h = Some (Hist.high b)
  /\ l = Some (Hist.low b) /\ c = Some (Hist.close b)
  /\ v = Some (Hist.volume b).
Proof.
  destruct o, h, l, c, v; simpl; try discriminate.
  intros [= <-]. repeat split.
Qed.

Lemma before_cons (p : option Q) (r : Hist.merged) (rest : list Hist.merged) (j : nat) :
  Spec.before p (r :: rest) (S j) = Spec.before (Hist.m_close r) rest j.
Proof. destruct j; reflexivity. Qed.

(** Every returned bar is built from the joined row its index names. *)
Lemma bars_sound (rows : list Hist.merged) :
  forall (i : nat) (prev : option Q) (b : Hist.bar),
    In b (Spec.bars i prev rows) ->
    exists j row,
      Hist.index b = (i + j)%nat
      /\ rows !! j = Some row
      /\ Hist.m_close row = Some (Hist.close b)
      /\ Hist.m_volume row = Some (Hist.volume b)
      /\ Some (Hist.open b)
         = Spec.fill (Spec.before prev rows j) (Some (Hist.close b))
      /\ Hist.high b = Qmax (Hist.open b) (Hist.close b)
      /\ Hist.low b = Qmin (Hist.open b) (Hist.close b).
Proof.
  induction rows as [|r rest IH]; intros i prev b Hin; [destruct Hin|].
  assert (Hrest : In b (Spec.bars (S i) (Hist.m_close r) rest) ->
    exists j row,
      Hist.index b = (i + j)%nat /\ (r :: rest) !! j = Some row
      /\ Hist.m_close row = Some (Hist.close b)
      /\ Hist.m_volume row = Some (Hist.volume b)
      /\ Some (Hist.open b)
         = Spec.fill (Spec.before prev (r :: rest) j) (Some (Hist.close b))
      /\ Hist.high b = Qmax (Hist.open b) (Hist.close b)
      /\ Hist.low b = Qmin (Hist.open b) (Hist.close b)).
  { intros H. destruct (IH _ _ _ H) as (j & row & Hi & Hj & Hrow).
    exists (S j), row. rewrite before_cons.
    split; [lia|]. split; [exact Hj | exact Hrow]. }
  simpl in Hin.
  destruct (Hist.complete i _ _ _ _ _) as [b0|] eqn:Hc; [|auto].
  destruct Hin as [<-|Hin]; [|auto].
  apply complete_some in Hc.
  destruct Hc as (Hi & Ho & Hh & Hl & Hcl & Hv).
  exists 0%nat, r. rewrite Hcl in *. simpl.
  split; [lia|]. split; [reflexivity|]. split; [reflexivity|].
  split; [exact Hv|]. split; [symmetry; exact Ho|].
  rewrite Ho in Hh, Hl. simpl in Hh, Hl.
  split; congruence.
Qed.

(** Every joined row without a [null] yields a bar. *)
Lemma bars_complete (rows : list Hist.merged) :
  forall (i : nat) (prev : option Q) (j : nat) (row : Hist.merged) (c v : Q),
    rows !! j = Some row ->
    Hist.m_close row = Some c -> Hist.m_volume row = Some v ->
    exists b, In b (Spec.bars i prev rows)
      /\ Hist.index b = (i + j)%nat
      /\ Hist.close b = c /\ Hist.volume b = v.
Proof.
  induction rows as [|r rest IH]; intros i prev j row c v Hj Hc Hv;
    [discriminate|].
  destruct j as [|j].
  - injection Hj as ->. simpl. rewrite Hc, Hv.
    destruct prev as [p|]; simpl; eexists; (split; [left; reflexivity|]);
      simpl; (split; [lia|split; reflexivity]).
  - destruct (IH (S i) (Hist.m_close r) j row c v Hj Hc Hv)
      as (b & Hin & Hi & Hcv).
    exists b. split; [|split; [lia|exact Hcv]].
    simpl. destruct (Hist.complete i _ _ _ _ _); [right|]; exact Hin.
Qed.

(** The index labels of the returned bars increase along the frame. *)
Lemma bars_index_increasing (rows : list Hist.merged) :
  forall (i : nat) (prev : option Q),
    Forall (fun b => (i <= Hist.index b)%nat) (Spec.bars i prev rows)
    /\ Sorted.StronglySorted lt (map Hist.index (Spec.bars i prev rows)).
Proof.
  induction rows as [|r rest IH]; intros i prev; simpl.
  - split; constructor.
  - destruct (IH (S i) (Hist.m_close r)) as [Hge Hsorted].
    assert (Hge' : Forall (fun b => (i <= Hist.index b)%nat)
                     (Spec.bars (S i) (Hist.m_close r) rest)).
    { eapply List.Forall_impl; [|exact Hge]. simpl. intros; lia. }
    destruct (Hist.complete i _ _ _ _ _) as [b|] eqn:Hc; [|split; assumption].
    apply complete_some in Hc. destruct Hc as (Hi & _).
    split.
    + constructor; [lia | exact Hge'].
    + simpl. constructor; [exact Hsorted|].
      rewrite List.Forall_map. eapply List.Forall_impl; [|exact Hge].
      simpl. intros; lia.
Qed.

(** The join is an inner join on the timestamp: a row for every pair of a
    price sample and a volume sample of the same instant, and no other. *)
Lemma merge_inner_join (prices vols : list Hist.sample) (row : Hist.merged) :
  In row (Hist.merge prices vols) <->
  exists p v, In p prices /\ In v vols /\ fst v = fst p
    /\ row = {| Hist.date := fst p; Hist.m_close := snd p;
                Hist.m_volume := snd v |}.
Proof.
  unfold Hist.merge, Hist.to_datetime. rewrite List.in_flat_map. split.
  - intros (p & Hp & Hrow). apply List.in_map_iff in Hrow.
    destruct Hrow as (v & <- & Hv). apply List.filter_In in Hv.
    destruct Hv as [Hv Heq]. apply Z.eqb_eq in Heq.
    exists p, v. repeat split; assumption.
  - intros (p & v & Hp & Hv & Heq & ->). exists p. split; [exact Hp|].
    apply List.in_map_iff. exists v. split; [reflexivity|].
    apply List.filter_In. split; [exact Hv|]. apply Z.eqb_eq. exact Heq.
Qed.

Lemma merge_no_null (prices vols : list Hist.sample) (row : Hist.merged) :
  Spec.no_null prices -> Spec.no_null vols ->
  In row (Hist.merge prices vols) ->
  Hist.m_close row <> None /\ Hist.m_volume row <> None.
Proof.
  intros Hp Hv Hrow. apply merge_inner_join in Hrow.
  destruct Hrow as (p & v & Hinp & Hinv & _ & ->). simpl.
  split; [apply Hp | apply Hv]; assumption.
Qed.

(** Without a [null] no row is dropped, and each bar opens at the close of
    the bar before it. *)
Lemma bars_reconstructed (rows : list Hist.merged) :
  (forall r, In r rows -> Hist.m_close r <> None /\ Hist.m_volume r <> None) ->
  forall (i : nat) (prev : option Q),
    Spec.reconstructed prev (Spec.bars i prev rows).
Proof.
  induction rows as [|r rest IH]; intros Hrows i prev; [exact I|].
  destruct (Hrows r (or_introl eq_refl)) as [Hc Hv].
  destruct (Hist.m_close r) as [c|] eqn:Ec; [|contradiction].
  destruct (Hist.m_volume r) as [v|] eqn:Ev; [|contradiction].
  assert (IH' := IH (fun r' H => Hrows r' (or_intror H)) (S i) (Some c)).
  simpl. rewrite Ec, Ev.
  destruct prev as [p|]; simpl; repeat split; try reflexivity; exact IH'.
Qed.

Lemma eqb_moved (a b d : Z) : ((a + d =? b + d) = (a =? b))%Z.
Proof. destruct (Z.eqb_spec a b), (Z.eqb_spec (a + d) (b + d)); lia || reflexivity. Qed.

(** The joined closes and volumes do not depend on where the series sit in
    time. *)
Lemma merge_moved (d : Z) (prices vols : list Hist.sample) :
  map Hist.m_close (Hist.merge (Spec.moved d prices) (Spec.moved d vols))
  = map Hist.m_close (Hist.merge prices vols)
  /\ map Hist.m_volume (Hist.merge (Spec.moved d prices) (Spec.moved d vols))
     = map Hist.m_volume (Hist.merge prices vols).
Proof.
  assert (Hmatch : forall (p : Hist.sample) (f : Hist.merged -> option Q)
                           (g : Hist.sample -> option Q),
    (forall (t : Z) (v : Hist.sample), f {| Hist.date := t; Hist.m_close := snd p;
                      Hist.m_volume := snd v |} = g v) ->
    map f (map (fun v => {| Hist.date := Hist.to_datetime (fst p + d);
                            Hist.m_close := snd p; Hist.m_volume := snd v |})
             (List.filter (fun v => Z.eqb (Hist.to_datetime (fst v))
                                          (Hist.to_datetime (fst p + d)))
                          (Spec.moved d vols)))
    = map f (map (fun v => {| Hist.date := Hist.to_datetime (fst p);
                              Hist.m_close := snd p; Hist.m_volume := snd v |})
               (List.filter (fun v => Z.eqb (Hist.to_datetime (fst v))
                                            (Hist.to_datetime (fst p)))
                            vols))).
  { intros p f g Hf. unfold Hist.to_datetime.
    induction vols as [|v vs IH]; [reflexivity|].
    simpl. rewrite eqb_moved. destruct (fst v =? fst p)%Z; simpl.
    - rewrite IH, !Hf. reflexivity.
    - exact IH. }
  unfold Hist.merge.
  split; induction prices as [|p ps IH]; try reflexivity; simpl;
    rewrite !List.map_app, IH; f_equal.
  - apply (Hmatch p Hist.m_close (fun _ => snd p)). reflexivity.
  - apply (Hmatch p Hist.m_volume (fun v => snd v)). reflexivity.
Qed.

Lemma ohlc_moved (d : Z) (prices vols : list Hist.sample) :
  Hist.ohlc (Spec.moved d prices) (Spec.moved d vols) = Hist.ohlc prices vols.
Proof.
  unfold Hist.ohlc. cbn zeta.
  destruct (merge_moved d prices vols) as [-> ->]. reflexivity.
Qed.

Lemma filter_unique (vols : list Hist.sample) (t : Z) :
  NoDup (map fst vols) ->
  (length (List.filter (fun v => Z.eqb (fst v) t) vols) <= 1)%nat.
Proof.
  induction vols as [|v vs IH]; intros Hnd; simpl; [lia|].
  inversion Hnd as [|? ? Hnotin Hnd']; subst.
  destruct (Z.eqb_spec (fst v) t) as [Heq|Hne]; [|auto].
  destruct (List.filter (fun v0 => Z.eqb (fst v0) t) vs) as [|w ws] eqn:E;
    [simpl; lia|].
  exfalso. apply Hnotin.
  assert (Hw : In w (List.filter (fun v0 => Z.eqb (fst v0) t) vs))
    by (rewrite E; left; reflexivity).
  apply List.filter_In in Hw. destruct Hw as [Hw Ht].
  apply Z.eqb_eq in Ht. rewrite Heq, <- Ht.
  apply list_elem_of_In, List.in_map, Hw.
Qed.

(** When the price series is strictly increasing in time and no instant
    occurs twice in the volume series, the joined rows are strictly
    increasing in time: the join keeps the order of the price series. *)
Lemma merge_dates_increasing (prices vols : list Hist.sample) :
  StronglySorted Z.lt (map fst prices) ->
  NoDup (map fst vols) ->
  StronglySorted Z.lt (map Hist.date (Hist.merge prices vols)).
Proof.
  intros Hs Hnd. induction prices as [|p ps IH]; [constructor|].
  inversion Hs as [|? ? Hs' Hlt]; subst. specialize (IH Hs').
  change (Hist.merge (p :: ps) vols)
    with (map (fun v => {| Hist.date := Hist.to_datetime (fst p);
                           Hist.m_close := snd p; Hist.m_volume := snd v |})
            (List.filter (fun v => Z.eqb (fst v) (fst p)) vols)
          ++ Hist.merge ps vols).
  pose proof (filter_unique vols (fst p) Hnd) as Hlen.
  destruct (List.filter (fun v => Z.eqb (fst v) (fst p)) vols) as [|v [|v' rest]].
  - exact IH.
  - simpl. constructor; [exact IH|].
    rewrite List.Forall_forall. intros t Ht.
    apply List.in_map_iff in Ht. destruct Ht as (row & <- & Hrow).
    apply merge_inner_join in Hrow.
    destruct Hrow as (p' & v0 & Hp' & _ & _ & ->). simpl.
    rewrite List.Forall_forall in Hlt. apply Hlt.
    apply List.in_map. exact Hp'.
  - simpl in Hlen. lia.
Qed.

(** ** The historical fetch *)

Section HistFetch.

Variable requests_get : Http.client Hist.payload.

Lemma fetch_historical_swallows (coin_id days : string) (e : exn) :
  Hist.fetch_historical_market_chart_try requests_get coin_id days = Err e ->
  Hist.fetch_historical_market_chart requests_get coin_id days = [].
Proof. unfold Hist.fetch_historical_market_chart. intros ->. reflexivity. Qed.

Lemma fetch_historical_accepted (coin_id days : string)
    (r : Http.response Hist.payload) (prices vols : list Hist.sample) :
  requests_get (Hist.url coin_id) (Hist.params days) 10%Z = Ok r ->
  Http.raise_for_status r = Ok tt ->
  Http.json r = Ok (Sample.chart prices vols) ->
  Hist.fetch_historical_market_chart requests_get coin_id days
  = if (Hist.empty prices || Hist.empty vols)%bool then []
    else Hist.ohlc prices vols.
Proof.
  intros Hget Hstatus Hjson.
  unfold Hist.fetch_historical_market_chart,
    Hist.fetch_historical_market_chart_try.
  rewrite Hget. simpl. rewrite Hstatus. simpl. rewrite Hjson. simpl.
  destruct (Hist.empty prices || Hist.empty vols)%bool; reflexivity.
Qed.

End HistFetch.

Lemma raise_for_status_not_ok {B} (r : Http.response B) :
  Http.ok r = false -> Http.raise_for_status r = Err HTTPError.
Proof.
  unfold Http.ok, Http.raise_for_status.
  destruct (_ && _)%bool; [reflexivity | discriminate].
Qed.

Lemma not_ok_error_class {B} (r : Http.response B) :
  Http.ok r = false <-> (400 <= Http.status_code r < 600)%Z.
Proof.
  unfold Http.ok, Http.raise_for_status.
  destruct (Z.leb_spec 400 (Http.status_code r)),
           (Z.ltb_spec (Http.status_code r) 600); simpl;
    split; intros; (lia || congruence).
Qed.

(** C2.  Both fetches fail soft.  A transport failure, an error status (the
    client and server error classes, for which the response is not [ok]), a
    body that does not decode, a decoded body that is no JSON object, and
    more generally anything raised inside the [try], all give the empty
    frame; the fetches are total functions, so nothing reaches the caller. *)
Theorem fetch_fail_soft :
  forall (f : string -> option Q)
         (live_get : Http.client value) (hist_get : Http.client Hist.payload)
         (coin_ids : list string) (coin_id days : string),
    let live := Live.fetch_live_prices f live_get coin_ids in
    let hist := Hist.fetch_historical_market_chart hist_get coin_id days in
    let live_reply := live_get Live.url (Live.params coin_ids) 10%Z in
    let hist_reply := hist_get (Hist.url coin_id) (Hist.params days) 10%Z in
    (forall e, live_reply = Err e -> live = [])
    /\ (forall e, hist_reply = Err e -> hist = [])
    /\ (forall r, live_reply = Ok r -> Http.ok r = false -> live = [])
    /\ (forall r, hist_reply = Ok r -> Http.ok r = false -> hist = [])
    /\ (forall r e, live_reply = Ok r -> Http.json r = Err e -> live = [])
    /\ (forall r e, hist_reply = Ok r -> Http.json r = Err e -> hist = [])
    /\ (forall r v, live_reply = Ok r -> Http.json r = Ok v ->
          (forall items, v <> VDict items) -> live = [])
    /\ (forall r, hist_reply = Ok r -> Http.json r = Ok Hist.NotADict ->
          hist = [])
    /\ (forall e, Live.fetch_live_prices_try f live_get coin_ids = Err e ->
          live = [])
    /\ (forall e,
          Hist.fetch_historical_market_chart_try hist_get coin_id days = Err e ->
          hist = []).
Proof.
  intros f live_get hist_get coin_ids coin_id days live hist live_reply
    hist_reply.
  subst live hist live_reply hist_reply.
  unfold Live.fetch_live_prices, Live.fetch_live_prices_try,
    Hist.fetch_historical_market_chart, Hist.fetch_historical_market_chart_try.
  repeat split.
  - intros e ->. reflexivity.
  - intros e ->. reflexivity.
  - intros r -> Hr. simpl. rewrite (raise_for_status_not_ok r Hr). reflexivity.
  - intros r -> Hr. simpl. rewrite (raise_for_status_not_ok r Hr). reflexivity.
  - intros r e -> Hr. simpl.
    destruct (Http.raise_for_status r); simpl; [rewrite Hr|]; reflexivity.
  - intros r e -> Hr. simpl.
    destruct (Http.raise_for_status r); simpl; [rewrite Hr|]; reflexivity.
  - intros r v -> Hr Hv. simpl.
    destruct (Http.raise_for_status r); simpl; [rewrite Hr|reflexivity].
    destruct v as [|b|q|s|xs|its]; simpl; try reflexivity.
    destruct (Hv its). reflexivity.
  - intros r -> Hr. simpl.
    destruct (Http.raise_for_status r); simpl; [rewrite Hr|]; reflexivity.
  - intros e ->. reflexivity.
  - intros e ->. reflexivity.
Qed.

Lemma fetch_fail_soft_witness :
  Live.fetch_live_prices Sample.no_float Sample.down COIN_IDS = []
  /\ Hist.fetch_historical_market_chart Sample.down "bitcoin" "90" = []
  /\ Live.fetch_live_prices Sample.no_float
       (Sample.status 503 (Ok (VDict [("bitcoin", Sample.bitcoin)]%string)))
       COIN_IDS = []
  /\ Hist.fetch_historical_market_chart
       (Sample.status 429 (Ok (Sample.chart Sample.prices_12 Sample.volumes_13)))
       "bitcoin" "90" = []
  /\ Live.fetch_live_prices Sample.no_float
       (Sample.status 200 (Err JSONDecodeError)) COIN_IDS = []
  /\ Hist.fetch_historical_market_chart
       (Sample.status 200 (Err JSONDecodeError)) "bitcoin" "90" = []
  /\ Live.fetch_live_prices Sample.no_float
       (Sample.answers (VList [VNum 1])) COIN_IDS = []
  /\ Hist.fetch_historical_market_chart
       (Sample.answers Hist.NotADict) "bitcoin" "90" = [].
Proof.
  split.
  { destruct (fetch_fail_soft Sample.no_float Sample.down Sample.down
                COIN_IDS "bitcoin" "90") as (H1 & _).
    exact (H1 RequestException eq_refl). }
  split.
  { destruct (fetch_fail_soft Sample.no_float Sample.down Sample.down
                COIN_IDS "bitcoin" "90") as (_ & H2 & _).
    exact (H2 RequestException eq_refl). }
  split.
  { destruct (fetch_fail_soft Sample.no_float
                (Sample.status 503 (Ok (VDict [("bitcoin", Sample.bitcoin)]%string)))
                Sample.down COIN_IDS "bitcoin" "90") as (_ & _ & H3 & _).
    exact (H3 _ eq_refl eq_refl). }
  split.
  { destruct (fetch_fail_soft Sample.no_float Sample.down
                (Sample.status 429
                   (Ok (Sample.chart Sample.prices_12 Sample.volumes_13)))
                COIN_IDS "bitcoin" "90") as (_ & _ & _ & H4 & _).
    exact (H4 _ eq_refl eq_refl). }
  split.
  { destruct (fetch_fail_soft Sample.no_float
                (Sample.status 200 (Err JSONDecodeError))
                Sample.down COIN_IDS "bitcoin" "90")
      as (_ & _ & _ & _ & H5 & _).
    exact (H5 _ JSONDecodeError eq_refl eq_refl). }
  split.
  { destruct (fetch_fail_soft Sample.no_float Sample.down
                (Sample.status 200 (Err JSONDecodeError))
                COIN_IDS "bitcoin" "90")
      as (_ & _ & _ & _ & _ & H6 & _).
    exact (H6 _ JSONDecodeError eq_refl eq_refl). }
  split.
  { destruct (fetch_fail_soft Sample.no_float
                (Sample.answers (VList [VNum 1]))
                Sample.down COIN_IDS "bitcoin" "90")
      as (_ & _ & _ & _ & _ & _ & H7 & _).
    refine (H7 _ (VList [VNum 1]) eq_refl eq_refl _).
    intros items Habs. discriminate Habs. }
  destruct (fetch_fail_soft Sample.no_float Sample.down
              (Sample.answers Hist.NotADict)
              COIN_IDS "bitcoin" "90")
    as (_ & _ & _ & _ & _ & _ & _ & H8 & _).
  exact (H8 _ eq_refl eq_refl).
Defined.

(** C7.  When the price series or the volume series of the payload is
    empty (or its key is absent), the historical fetch returns the empty
    frame: prices without volumes, or volumes without prices, are no
    data. *)
Theorem empty_series_is_no_data :
  forall (requests_get : Http.client Hist.payload) (coin_id days : string)
         (r : Http.response Hist.payload)
         (prices vols : option (list Hist.sample)),
    requests_get (Hist.url coin_id) (Hist.params days) 10%Z = Ok r ->
    Http.json r = Ok (Hist.Chart prices vols) ->
    prices = None \/ prices = Some [] \/ vols = None \/ vols = Some [] ->
    Hist.fetch_historical_market_chart requests_get coin_id days = [].
Proof.
  intros requests_get coin_id days r prices vols Hget Hjson Hempty.
  unfold Hist.fetch_historical_market_chart,
    Hist.fetch_historical_market_chart_try.
  rewrite Hget. simpl.
  destruct (Http.raise_for_status r); simpl; [|reflexivity].
  rewrite Hjson. simpl.
  destruct Hempty as [-> | [-> | [-> | ->]]]; simpl; try reflexivity;
    destruct prices as [[|p ps]|]; reflexivity.
Qed.

Lemma empty_series_is_no_data_witness :
  Hist.fetch_historical_market_chart
    (Sample.answers (Hist.Chart (Some Sample.prices_12) (Some [])))
    "bitcoin" "90" = []
  /\ Hist.fetch_historical_market_chart
       (Sample.answers (Hist.Chart None (Some Sample.volumes_13)))
       "bitcoin" "90" = [].
Proof.
  split.
  - apply (empty_series_is_no_data
             (Sample.answers (Hist.Chart (Some Sample.prices_12) (Some [])))
             "bitcoin" "90" _ (Some Sample.prices_12) (Some [])
             eq_refl eq_refl).
    right. right. right. reflexivity.
  - apply (empty_series_is_no_data
             (Sample.answers (Hist.Chart None (Some Sample.volumes_13)))
             "bitcoin" "90" _ None (Some Sample.volumes_13)
             eq_refl eq_refl).
    left. reflexivity.
Defined.

Lemma ohlc_no_volumes (prices : list Hist.sample) : Hist.ohlc prices [] = [].
Proof.
  unfold Hist.ohlc.
  assert (Hmerge : Hist.merge prices [] = [])
    by (unfold Hist.merge; induction prices; simpl; auto).
  rewrite Hmerge. reflexivity.
Qed.

(** For an accepted response that carries both series, the fetch returns
    the frame of lines 77 to 85; the early return for an empty series
    agrees with it. *)
Lemma fetch_historical_is_ohlc (requests_get : Http.client Hist.payload)
    (coin_id days : string) (r : Http.response Hist.payload)
    (prices vols : list Hist.sample) :
  requests_get (Hist.url coin_id) (Hist.params days) 10%Z = Ok r ->
  Http.raise_for_status r = Ok tt ->
  Http.json r = Ok (Sample.chart prices vols) ->
  Hist.fetch_historical_market_chart requests_get coin_id days
  = Hist.ohlc prices vols.
Proof.
  intros Hget Hstatus Hjson.
  rewrite (fetch_historical_accepted requests_get coin_id days r prices vols
             Hget Hstatus Hjson).
  destruct prices as [|p ps]; [reflexivity|].
  destruct vols as [|v vs]; [|reflexivity].
  symmetry. apply ohlc_no_volumes.
Qed.

Lemma fetch_historical_answered (coin_id days : string)
    (prices vols : list Hist.sample) :
  Hist.fetch_historical_market_chart
    (Sample.answers (Sample.chart prices vols)) coin_id days
  = Hist.ohlc prices vols.
Proof.
  apply (fetch_historical_is_ohlc _ coin_id days
           {| Http.status_code := 200;
              Http.json := Ok (Sample.chart prices vols) |});
    reflexivity.
Qed.

(** C3 (amended).  The historical frame is built from the inner join of the
    two series on the timestamp.  Every returned bar comes from the joined
    row its index names: its close is the sampled price, its volume the
    matched volume, its open the close of the joined row just before, or its
    own close when there is no such row or that close is null, and its high
    and low are the larger and the smaller of open and close; every joined
    row without a null gives a bar.  When no sample is null, each bar opens
    at the close of the bar before it.  For prices [(t1,10),(t2,20)] and
    volumes [(t1,5),(t3,9)] the result is the single bar at [t1] with open,
    high, low and close 10 and volume 5. *)
Theorem ohlc_from_joined_rows :
  (forall (prices vols : list Hist.sample),
      let df := Hist.merge prices vols in
      (forall (requests_get : Http.client Hist.payload) coin_id days r,
          requests_get (Hist.url coin_id) (Hist.params days) 10%Z = Ok r ->
          Http.raise_for_status r = Ok tt ->
          Http.json r = Ok (Sample.chart prices vols) ->
          Hist.fetch_historical_market_chart requests_get coin_id days
          = Hist.ohlc prices vols)
      /\ (forall row,
            In row df <->
            exists p v, In p prices /\ In v vols /\ fst v = fst p
              /\ row = {| Hist.date := fst p; Hist.m_close := snd p;
                          Hist.m_volume := snd v |})
      /\ (forall b,
            In b (Hist.ohlc prices vols) ->
            exists row,
              df !! Hist.index b = Some row
              /\ Hist.m_close row = Some (Hist.close b)
              /\ Hist.m_volume row = Some (Hist.volume b)
              /\ Some (Hist.open b)
                 = Spec.fill (Spec.prev_close df (Hist.index b))
                     (Some (Hist.close b))
              /\ Hist.high b = Qmax (Hist.open b) (Hist.close b)
              /\ Hist.low b = Qmin (Hist.open b) (Hist.close b))
      /\ (forall i row c v,
            df !! i = Some row ->
            Hist.m_close row = Some c -> Hist.m_volume row = Some v ->
            exists b, In b (Hist.ohlc prices vols)
              /\ Hist.index b = i /\ Hist.close b = c /\ Hist.volume b = v)
      /\ (Spec.no_null prices -> Spec.no_null vols ->
            Spec.reconstructed None (Hist.ohlc prices vols)))
  /\ Hist.fetch_historical_market_chart
       (Sample.answers (Sample.chart Sample.prices_12 Sample.volumes_13))
       "bitcoin" "90"
     = [ {| Hist.index := 0; Hist.open := 10; Hist.high := 10; Hist.low := 10;
            Hist.close := 10; Hist.volume := 5 |} ].
Proof.
  split; [|reflexivity].
  intros prices vols df. subst df.
  split; [intros requests_get coin_id days r; apply fetch_historical_is_ohlc|].
  split; [intros row; apply merge_inner_join|].
  rewrite ohlc_rowwise. split; [|split].
  - intros b Hb.
    destruct (bars_sound _ _ _ _ Hb) as (j & row & Hi & Hrow).
    simpl in Hi. rewrite Hi. exists row. exact Hrow.
  - intros i row c v Hi Hc Hv.
    exact (bars_complete _ 0%nat None i row c v Hi Hc Hv).
  - intros Hp Hv. apply bars_reconstructed.
    intros r. apply merge_no_null; assumption.
Qed.

Lemma ohlc_from_joined_rows_witness :
  Spec.no_null Sample.prices_12 /\ Spec.no_null Sample.volumes_13
  /\ Spec.reconstructed None (Hist.ohlc Sample.prices_12 Sample.volumes_13).
Proof.
  assert (Hp : Spec.no_null Sample.prices_12)
    by (intros s [<-|[<-|[]]]; discriminate).
  assert (Hv : Spec.no_null Sample.volumes_13)
    by (intros s [<-|[<-|[]]]; discriminate).
  split; [exact Hp|]. split; [exact Hv|].
  destruct (proj1 ohlc_from_joined_rows Sample.prices_12 Sample.volumes_13)
    as (_ & _ & _ & _ & H).
  exact (H Hp Hv).
Defined.

(** C3 as it is stated fails: with prices at three instants and a null
    volume at the second, the second joined row is dropped, and the bar that
    follows opens at 20, the close of the dropped row, not at 10, the close
    of the bar before it. *)
Lemma open_is_close_of_dropped_row :
  Hist.fetch_historical_market_chart
    (Sample.answers (Sample.chart Sample.prices_123 Sample.volumes_1n3))
    "bitcoin" "90"
  = [ {| Hist.index := 0; Hist.open := 10; Hist.high := 10; Hist.low := 10;
         Hist.close := 10; Hist.volume := 5 |};
      {| Hist.index := 2; Hist.open := 20; Hist.high := 30; Hist.low := 20;
         Hist.close := 30; Hist.volume := 7 |} ]
  /\ ~ Spec.reconstructed None
        (Hist.fetch_historical_market_chart
           (Sample.answers (Sample.chart Sample.prices_123 Sample.volumes_1n3))
           "bitcoin" "90").
Proof.
  split; [reflexivity|].
  intros (_ & _ & _ & Hopen & _).
  vm_compute in Hopen. discriminate Hopen.
Qed.

(** C6 (the bars carry no timestamp).  The returned frame keeps the five
    value columns only and its index is the row number of the join: the bar
    of a sample taken at instant 1700000000000 is labelled 0, moving both
    series in time leaves the returned frame unchanged, and every label is a
    position of the joined frame, increasing along the result. *)
Theorem bars_carry_no_timestamp :
  Hist.fetch_historical_market_chart
    (Sample.answers (Sample.chart Sample.one_price Sample.one_volume))
    "bitcoin" "90"
  = [ {| Hist.index := 0; Hist.open := 10; Hist.high := 10; Hist.low := 10;
         Hist.close := 10; Hist.volume := 5 |} ]
  /\ (forall (d : Z) (prices vols : list Hist.sample),
        Hist.fetch_historical_market_chart
          (Sample.answers
             (Sample.chart (Spec.moved d prices) (Spec.moved d vols)))
          "bitcoin" "90"
        = Hist.fetch_historical_market_chart
            (Sample.answers (Sample.chart prices vols)) "bitcoin" "90")
  /\ (forall prices vols : list Hist.sample,
        Forall (fun b => (Hist.index b < length (Hist.merge prices vols))%nat)
          (Hist.ohlc prices vols)
        /\ StronglySorted lt (map Hist.index (Hist.ohlc prices vols))).
Proof.
  split; [reflexivity|]. split.
  - intros d prices vols.
    rewrite !fetch_historical_answered.
    apply ohlc_moved.
  - intros prices vols. rewrite ohlc_rowwise. split.
    + rewrite List.Forall_forall. intros b Hb.
      destruct (bars_sound _ _ _ _ Hb) as (j & row & Hi & Hj & _).
      simpl in Hi. rewrite Hi. apply (lookup_lt_Some _ _ _ Hj).
    + apply bars_index_increasing.
Qed.

(** ** Plot helper *)

Lemma list_has_no_iter (values : list Q) :
  Plot.hasattr (Plot.PyList values) "iter" = false.
Proof. reflexivity. Qed.

Lemma build_sparkline_without_iter (s : Plot.series) :
  Plot.hasattr s "iter" = false ->
  Plot.y (Plot.build_sparkline s) = [0; 0].
Proof. intros Hs. unfold Plot.build_sparkline. rewrite Hs. reflexivity. Qed.

(** C10.  [build_sparkline] plots [[0, 0]] for every list, in particular
    for the sparkline of every row of a snapshot, and for every object that
    has no attribute named [iter]: the guard asks for [iter], which a list
    does not have (it has [__iter__]), so the values are never read. *)
Theorem build_sparkline_ignores_input :
  (forall values : list Q,
      Plot.y (Plot.build_sparkline (Plot.PyList values)) = [0; 0])
  /\ (forall f requests_get coin_ids,
      Forall (fun row =>
                Plot.y (Plot.build_sparkline (Plot.PyList (Live.open row)))
                = [0; 0])
        (Live.fetch_live_prices f requests_get coin_ids))
  /\ (forall s : Plot.series,
      Plot.hasattr s "iter" = false ->
      Plot.y (Plot.build_sparkline s) = [0; 0])
  /\ (forall values : list Q,
      Plot.hasattr (Plot.PyList values) "iter" = false
      /\ Plot.hasattr (Plot.PyList values) "__iter__" = true).
Proof.
  split; [reflexivity|]. split.
  - intros f requests_get coin_ids. rewrite List.Forall_forall.
    intros row _. reflexivity.
  - split; [exact build_sparkline_without_iter|].
    intros values. split; reflexivity.
Qed.

Lemma build_sparkline_ignores_input_witness :
  Plot.hasattr (Plot.PyObject ["index"; "values"; "__iter__"]%string [3; 1; 2])
    "iter" = false
  /\ Plot.y (Plot.build_sparkline
               (Plot.PyObject ["index"; "values"; "__iter__"]%string [3; 1; 2]))
     = [0; 0].
Proof.
  split; [reflexivity|].
  apply (proj1 (proj2 (proj2 build_sparkline_ignores_input))). reflexivity.
Defined.

(** ** Cache layer *)

Section CacheProps.

Context {K V : Type} `{Countable K}.
Variable ttl : Q.
Variable func : Q -> K -> V.

Lemma fresh_young (now : Q) (e : V * Q) :
  now - snd e < ttl -> Cache.fresh ttl now e = true.
Proof.
  intros Hage. unfold Cache.fresh.
  destruct (Qle_bool ttl (now - snd e)) eqn:E; [|reflexivity].
  apply Qle_bool_iff in E. lra.
Qed.

Lemma fresh_old (now : Q) (e : V * Q) :
  ttl <= now - snd e -> Cache.fresh ttl now e = false.
Proof.
  intros Hage. unfold Cache.fresh.
  apply Qle_bool_iff in Hage. rewrite Hage. reflexivity.
Qed.

Lemma call_hit (st : Cache.state) (args : K) (now : Q) (e : V * Q) :
  Cache.store st !! args = Some e ->
  now - snd e < ttl ->
  Cache.call ttl func args now st = (fst e, st).
Proof.
  intros He Hage. unfold Cache.call. rewrite He, (fresh_young now e Hage).
  reflexivity.
Qed.

Lemma call_miss (st : Cache.state) (args : K) (now : Q) :
  (forall e, Cache.store st !! args = Some e -> ttl <= now - snd e) ->
  Cache.call ttl func args now st = Cache.miss func args now st.
Proof.
  intros Hold. unfold Cache.call.
  destruct (Cache.store st !! args) as [e|] eqn:He; [|reflexivity].
  rewrite (fresh_old now e (Hold e eq_refl)). reflexivity.
Qed.

Lemma miss_stores (st : Cache.state) (args : K) (now : Q) :
  Cache.store (snd (Cache.miss func args now st)) !! args
  = Some (func now args, now).
Proof. simpl. apply lookup_insert_eq. Qed.

Lemma call_other_key (st : Cache.state) (args other : K) (now : Q) :
  args <> other ->
  Cache.store (snd (Cache.call ttl func args now st)) !! other
  = Cache.store st !! other.
Proof.
  intros Hne. unfold Cache.call.
  destruct (Cache.store st !! args) as [e|];
    [destruct (Cache.fresh ttl now e)|]; simpl; try reflexivity;
    apply lookup_insert_ne; exact Hne.
Qed.

Lemma call_memoized : Spec.memoized ttl func (Cache.call ttl func).
Proof.
  split; [|split; [|split; [|exact call_other_key]]].
  - intros st args now v t0 He Hage.
    apply (call_hit st args now (v, t0) He Hage).
  - intros st args t1 t2 Hold Hle Hwin first second. subst first second.
    rewrite (call_miss st args t1 Hold).
    rewrite (call_hit _ args t2 _ (miss_stores st args t1)) by (simpl; lra).
    repeat split.
  - intros st args now v t0 He Hage fetched. subst fetched.
    rewrite (call_miss st args now).
    + split; [reflexivity|]. split; [reflexivity|]. apply miss_stores.
    + intros e He'. rewrite He in He'. injection He' as <-. exact Hage.
Qed.

End CacheProps.

(** C8.  Both fetches are memoized per argument tuple, the live snapshot
    with a time-to-live of 60 and the historical chart with 3600: a fresh
    entry is returned without a run of the fetch, two calls with the same
    arguments within the window run the fetch once and return the same
    frame, a call after the time-to-live has elapsed runs the fetch again
    and replaces the entry, and a call never touches the entry of other
    arguments. *)
Theorem fetches_memoized_with_ttl :
  forall (f : string -> option Q)
         (live_network : Q -> Http.client value)
         (hist_network : Q -> Http.client Hist.payload),
    Spec.memoized 60
      (fun now coin_ids =>
         Live.fetch_live_prices f (live_network now) coin_ids)
      (Cache.fetch_live_prices f live_network)
    /\ Spec.memoized 3600
         (fun now (args : string * string) =>
            Hist.fetch_historical_market_chart (hist_network now)
              (fst args) (snd args))
         (Cache.fetch_historical_market_chart hist_network).
Proof.
  intros f live_network hist_network. split; apply call_memoized.
Qed.

Lemma fetches_memoized_with_ttl_witness :
  (0 <= 59 /\ 59 - 0 < 60)
  /\ fst (Cache.fetch_live_prices Sample.no_float Sample.live_network
            COIN_IDS 59
            (snd (Cache.fetch_live_prices Sample.no_float Sample.live_network
                    COIN_IDS 0 Cache.init)))
     = fst (Cache.fetch_live_prices Sample.no_float Sample.live_network
              COIN_IDS 0 Cache.init)
  /\ Cache.runs
       (snd (Cache.fetch_live_prices Sample.no_float Sample.live_network
               COIN_IDS 59
               (snd (Cache.fetch_live_prices Sample.no_float
                       Sample.live_network COIN_IDS 0 Cache.init))))
     = [(0, COIN_IDS)].
Proof.
  assert (H0 : 0 <= 59) by (intros Habs; discriminate Habs).
  assert (H1 : 59 - 0 < 60) by reflexivity.
  split; [split; assumption|].
  destruct (fetches_memoized_with_ttl Sample.no_float Sample.live_network
              Sample.hist_network) as [(_ & Hwindow & _) _].
  assert (Hnew : forall e : Live.DataFrame * Q,
             Cache.store Cache.init !! COIN_IDS = Some e -> 60 <= 0 - snd e).
  { intros e He. simpl in He. rewrite lookup_empty in He. discriminate He. }
  destruct (Hwindow Cache.init COIN_IDS 0 59 Hnew H0 H1) as (_ & Hsame & Hruns).
  split; [exact Hsame | exact Hruns].
Defined.

(** * Further properties of the code *)

(** ** Batches *)

Lemma skipn_shorter {A : Type} (xs : list A) (n : nat) (x : A) (batch : list A) :
  firstn n xs = x :: batch -> (length (skipn n xs) < length xs)%nat.
Proof.
  intros Hb. rewrite List.length_skipn.
  destruct n; [discriminate|]. destruct xs; [discriminate|]. simpl. lia.
Qed.

(** Any number of turns above the number of items gives the same batches:
    the loop has ended by itself. *)
Lemma batched_loop_enough {A : Type} (n : nat) :
  forall (turns turns' : nat) (xs : list A),
    (length xs < turns)%nat -> (length xs < turns')%nat ->
    batched_loop turns xs n = batched_loop turns' xs n.
Proof.
  induction turns as [|turns IH]; intros turns' xs Ht Ht'; [lia|].
  destruct turns' as [|turns']; [lia|]. simpl.
  destruct (firstn n xs) as [|x batch] eqn:Hb; [reflexivity|].
  pose proof (skipn_shorter xs n x batch Hb) as Hshort.
  f_equal. apply IH; lia.
Qed.

Lemma batched_step {A : Type} (xs : list A) (n : nat) :
  batched xs n
  = match firstn n xs with
    | [] => []
    | x :: batch => (x :: batch) :: batched (skipn n xs) n
    end.
Proof.
  unfold batched.
  change (batched_loop (S (length xs)) xs n)
    with (match firstn n xs with
          | [] => []
          | x :: batch =>
              (x :: batch) :: batched_loop (length xs) (skipn n xs) n
          end).
  destruct (firstn n xs) as [|x batch] eqn:Hb; [reflexivity|].
  pose proof (skipn_shorter xs n x batch Hb) as Hshort.
  f_equal. apply batched_loop_enough; lia.
Qed.

Lemma firstn_nil_inv {A : Type} (xs : list A) (n : nat) :
  firstn n xs = [] -> xs = [] \/ n = 0%nat.
Proof. destruct n, xs; simpl; intros; auto; discriminate. Qed.

(** Induction on the length of the list that is still to be batched. *)
Lemma batched_ind {A : Type} (n : nat) (P : list A -> Prop) :
  (forall xs, (forall ys, (length ys < length xs)%nat -> P ys) -> P xs) ->
  forall xs, P xs.
Proof.
  intros Hstep xs. remember (length xs) as m eqn:Hm.
  revert xs Hm. induction m as [m IH] using lt_wf_ind.
  intros xs ->. apply Hstep. intros ys Hys. exact (IH _ Hys ys eq_refl).
Qed.

Lemma batched_flat {A : Type} (xs : list A) (n : nat) :
  (0 < n)%nat -> concat (batched xs n) = xs.
Proof.
  intros Hn. induction xs as [xs IH] using (batched_ind n).
  rewrite batched_step. destruct (firstn n xs) as [|x batch] eqn:Hb.
  - destruct (firstn_nil_inv xs n Hb) as [->| ->]; [reflexivity | lia].
  - change ((x :: batch) ++ concat (batched (skipn n xs) n) = xs).
    rewrite (IH _ (skipn_shorter xs n x batch Hb)).
    rewrite <- Hb. apply List.firstn_skipn.
Qed.

Lemma batched_bounded {A : Type} (xs : list A) (n : nat) :
  Forall (fun b => (length b <= n)%nat) (batched xs n).
Proof.
  induction xs as [xs IH] using (batched_ind n).
  rewrite batched_step. destruct (firstn n xs) as [|x batch] eqn:Hb;
    constructor.
  - rewrite <- Hb, List.length_firstn. lia.
  - apply IH. exact (skipn_shorter xs n x batch Hb).
Qed.

(** X1.  With a positive batch size, the batches laid end to end are the
    input: no item is lost, repeated or reordered. *)
Theorem batched_concat :
  forall (A : Type) (xs : list A) (n_cols : nat),
    (0 < n_cols)%nat -> concat (batched xs n_cols) = xs.
Proof. intros A xs n Hn. apply batched_flat. exact Hn. Qed.

Lemma batched_concat_witness :
  (0 < 4)%nat
  /\ concat (batched [1; 2; 3; 4; 5; 6; 7; 8; 9]%nat 4)
     = [1; 2; 3; 4; 5; 6; 7; 8; 9]%nat.
Proof.
  assert (H4 : (0 < 4)%nat) by lia.
  split; [exact H4|]. exact (batched_concat nat _ 4%nat H4).
Defined.

Lemma batched_none {A : Type} (xs : list A) (n : nat) :
  batched xs n = [] <-> xs = [] \/ n = 0%nat.
Proof.
  rewrite batched_step. split.
  - destruct (firstn n xs) eqn:Hb; [|discriminate].
    intros _. exact (firstn_nil_inv xs n Hb).
  - intros [->| ->]; [destruct n|]; reflexivity.
Qed.

(** X2.  No batch is yielded exactly when the input is empty or the batch
    size is zero: with [n_cols = 0] a non-empty input is dropped without an
    error. *)
Theorem batched_nil_iff :
  forall (A : Type) (xs : list A) (n_cols : nat),
    batched xs n_cols = [] <-> xs = [] \/ n_cols = 0%nat.
Proof. intros A xs n. apply batched_none. Qed.

(** X3.  With a positive batch size every batch holds between one and
    [n_cols] items, and every batch but the last holds exactly [n_cols]. *)
Theorem batched_sizes :
  forall (A : Type) (xs : list A) (n_cols : nat),
    (0 < n_cols)%nat ->
    Forall (fun b => (1 <= length b <= n_cols)%nat) (batched xs n_cols)
    /\ (forall (i : nat) (b : list A),
          batched xs n_cols !! i = Some b ->
          (S i < length (batched xs n_cols))%nat ->
          length b = n_cols).
Proof.
  intros A xs n Hn. induction xs as [xs IH] using (batched_ind n).
  rewrite batched_step. destruct (firstn n xs) as [|x batch] eqn:Hb.
  - split; [constructor | intros i b Hi; discriminate Hi].
  - destruct (IH _ (skipn_shorter xs n x batch Hb)) as [IHall IHfull].
    split.
    + constructor; [|exact IHall]. rewrite <- Hb, List.length_firstn.
      assert (length xs <> 0)%nat by (destruct xs, n; simpl in *; congruence).
      lia.
    + intros [|i] b Hi Hlast.
      * injection Hi as <-. simpl in Hlast.
        assert (Hrest : batched (skipn n xs) n <> [])
          by (intros E; rewrite E in Hlast; simpl in Hlast; lia).
        rewrite <- Hb, List.length_firstn.
        assert (Hmore : (n < length xs)%nat).
        { destruct (Nat.lt_ge_cases n (length xs)) as [Hlt|Hge]; [exact Hlt|].
          exfalso. apply Hrest. apply batched_none. left.
          apply List.skipn_all2. exact Hge. }
        lia.
      * simpl in Hi, Hlast. apply (IHfull i b Hi). lia.
Qed.

Lemma batched_sizes_witness :
  (0 < 4)%nat
  /\ Forall (fun b => (1 <= length b <= 4)%nat)
       (batched [1; 2; 3; 4; 5; 6; 7; 8; 9]%nat 4).
Proof.
  assert (H4 : (0 < 4)%nat) by lia.
  split; [exact H4|]. exact (proj1 (batched_sizes nat _ 4%nat H4)).
Defined.

Lemma batched_length {A : Type} (xs : list A) (n : nat) :
  (0 < n)%nat -> length (batched xs n) = Nat.div (length xs + n - 1) n.
Proof.
  intros Hn. induction xs as [xs IH] using (batched_ind n).
  rewrite batched_step. destruct (firstn n xs) as [|x batch] eqn:Hb.
  - destruct (firstn_nil_inv xs n Hb) as [->| ->]; [|lia].
    simpl. symmetry. apply Nat.div_small. lia.
  - simpl length. rewrite (IH _ (skipn_shorter xs n x batch Hb)).
    rewrite List.length_skipn.
    assert (Hpos : (0 < length xs)%nat)
      by (destruct xs, n; simpl in *; try discriminate; lia).
    destruct (Nat.le_gt_cases n (length xs)) as [Hle|Hgt].
    + replace (length xs + n - 1)%nat with (length xs - n + n - 1 + 1 * n)%nat
        by lia.
      rewrite Nat.div_add by lia. lia.
    + replace (length xs - n + n - 1)%nat with (n - 1)%nat by lia.
      rewrite (Nat.div_small (n - 1) n) by lia.
      apply (Nat.div_unique _ n 1%nat (length xs - 1)%nat); lia.
Qed.

(** X4.  With a positive batch size the number of batches is the length of
    the input divided by the batch size, rounded up. *)
Theorem batched_count :
  forall (A : Type) (xs : list A) (n_cols : nat),
    (0 < n_cols)%nat ->
    length (batched xs n_cols) = Nat.div (length xs + n_cols - 1) n_cols.
Proof. intros A xs n Hn. apply batched_length. exact Hn. Qed.

Lemma batched_count_witness :
  (0 < 4)%nat /\ length (batched COIN_IDS 4) = 2%nat.
Proof.
  assert (H4 : (0 < 4)%nat) by lia.
  split; [exact H4|]. exact (batched_count string COIN_IDS 4%nat H4).
Defined.

(** ** Rows of the snapshot, continued *)

Lemma upper_ascii_idem (c : ascii) : upper_ascii (upper_ascii c) = upper_ascii c.
Proof. destruct c as [[] [] [] [] [] [] [] []]; reflexivity. Qed.

Lemma upper_idem (s : string) : upper (upper s) = upper s.
Proof.
  induction s as [|c s IH]; simpl; [reflexivity|].
  rewrite upper_ascii_idem, IH. reflexivity.
Qed.

Lemma for_each_inv {A B} (body : A -> result B) (g : A -> B) (P : A -> Prop)
    (xs : list A) (ys : list B) :
  (forall x y, body x = Ok y -> y = g x /\ P x) ->
  for_each body xs = Ok ys ->
  ys = map g xs /\ Forall P xs.
Proof.
  intros Hbody. revert ys. induction xs as [|x xs IH]; intros ys Hrun.
  - injection Hrun as <-. split; constructor.
  - simpl in Hrun. bind_inv Hrun. injection Hrun as <-.
    match goal with
    | Hx : body x = Ok _, Hxs : for_each body xs = Ok _ |- _ =>
        destruct (Hbody _ _ Hx) as [-> HP];
        destruct (IH _ Hxs) as [-> HPs]
    end.
    split; [reflexivity | constructor; assumption].
Qed.

Lemma truediv_inv (a : value) (d q : Q) :
  truediv a d = Ok q ->
  exists x, as_number a = Some x /\ ~ d == 0 /\ q = x / d.
Proof.
  unfold truediv. destruct (as_number a) as [x|]; [|discriminate].
  destruct (Qeq_bool d 0) eqn:E; [discriminate|].
  intros [= <-]. exists x. split; [reflexivity|]. split; [|reflexivity].
  intros Hd. apply Qeq_bool_iff in Hd. congruence.
Qed.

(** A sparkline that is built is the formula of the specification at the
    numbers its two arguments stand for, and none of its denominators is
    zero. *)
Lemma sparkline_inv (v w : value) (s : list Q) :
  Live.sparkline v w = Ok s ->
  exists x y,
    as_number v = Some x /\ as_number w = Some y
    /\ s = Spec.synthesize_sparkline x y
    /\ Forall (fun d => ~ d == 0) (Spec.denominators y).
Proof.
  intros Hs.
  destruct (as_number v) as [x|] eqn:Ev;
    [|unfold Live.sparkline, Live.steps, Live.point, truediv in Hs;
      simpl in Hs; rewrite Ev in Hs;
      destruct (as_number w); discriminate Hs].
  destruct (as_number w) as [y|] eqn:Ew;
    [|unfold Live.sparkline, Live.steps, Live.point, truediv in Hs;
      simpl in Hs; rewrite Ew in Hs; discriminate Hs].
  exists x, y. split; [reflexivity|]. split; [reflexivity|].
  unfold Live.sparkline in Hs.
  apply (for_each_inv _
           (fun i : Z => x / (1 + y / 100 * (inject_Z i / 6)))
           (fun i : Z => ~ 1 + y / 100 * (inject_Z i / 6) == 0)) in Hs.
  - destruct Hs as [-> Hden]. split; [reflexivity|].
    unfold Spec.denominators. apply List.Forall_map. exact Hden.
  - intros i q Hq. unfold Live.point in Hq. bind_inv Hq.
    match goal with
    | Hc : truediv w 100 = Ok _ |- _ =>
        apply truediv_inv in Hc; destruct Hc as (y' & Hy' & _ & ->)
    end.
    apply truediv_inv in Hq. destruct Hq as (x' & Hx' & Hd & ->).
    rewrite Ev in Hx'. rewrite Ew in Hy'.
    injection Hx' as <-. injection Hy' as <-. split; [reflexivity | exact Hd].
Qed.

Section LiveRowsMore.

Variable str_to_float : string -> option Q.

Lemma as_number_float (v : value) (x q : Q) :
  as_number v = Some x -> Live.float str_to_float v = Ok q -> q = x.
Proof.
  destruct v as [|[]|n|s|xs|its]; simpl; intros Hx Hq;
    try discriminate; congruence.
Qed.

(** What a built row holds. *)
Lemma entry_inv (t : string) (m : value) (r : Live.row) :
  Live.entry str_to_float t m = Ok r ->
  Live.id r = t
  /\ Live.ticker r = upper t
  /\ Live.open r
     = Spec.synthesize_sparkline (Live.last_price r) (Live.change_pct r)
  /\ Forall (fun d => ~ d == 0) (Spec.denominators (Live.change_pct r)).
Proof.
  intros Hrow. unfold Live.entry in Hrow. cbv zeta in Hrow. bind_inv Hrow.
  injection Hrow as <-. simpl.
  match goal with
  | Hs : Live.sparkline _ _ = Ok _ |- _ =>
      apply sparkline_inv in Hs;
      destruct Hs as (lp & cp & Hlp & Hcp & -> & Hden)
  end.
  repeat match goal with
  | Hf : Live.float str_to_float ?v = Ok ?q, Hn : as_number ?v = Some ?n |- _ =>
      pose proof (as_number_float v n q Hn Hf); subst q; clear Hf
  end.
  repeat split; assumption || reflexivity.
Qed.

Lemma loop_inv (items : list (string * value)) :
  forall (data out : list Live.row),
    Live.loop str_to_float items data = Ok out ->
    exists rows,
      out = data ++ rows
      /\ Forall2 (fun e r => Live.entry str_to_float (fst e) (snd e) = Ok r)
           items rows.
Proof.
  induction items as [|[t m] rest IH]; intros data out Hloop.
  - injection Hloop as <-. exists []. split; [symmetry; apply app_nil_r|].
    constructor.
  - simpl in Hloop. bind_inv Hloop.
    destruct (IH _ _ Hloop) as (rows & -> & Hrows).
    eexists (_ :: rows). split; [rewrite <- app_assoc; reflexivity|].
    constructor; assumption.
Qed.

Variable requests_get : Http.client value.

(** A snapshot that is not empty is built from the entries of an accepted
    payload, one row each, in their order. *)
Lemma fetch_live_prices_inv (coin_ids : list string) :
  Live.fetch_live_prices str_to_float requests_get coin_ids = []
  \/ exists r items,
       requests_get Live.url (Live.params coin_ids) 10%Z = Ok r
       /\ Http.raise_for_status r = Ok tt
       /\ Http.json r = Ok (VDict items)
       /\ Forall2 (fun e row =>
                     Live.entry str_to_float (fst e) (snd e) = Ok row)
            items
            (Live.fetch_live_prices str_to_float requests_get coin_ids).
Proof.
  unfold Live.fetch_live_prices, Live.fetch_live_prices_try.
  destruct (requests_get _ _ _) as [r|] eqn:Hget; [|left; reflexivity].
  simpl. destruct (Http.raise_for_status r) as [[]|] eqn:Hst;
    [|left; reflexivity].
  simpl. destruct (Http.json r) as [[|b|q|s|xs|items]|] eqn:Hjson;
    try (left; reflexivity).
  simpl. destruct (Live.loop str_to_float items []) as [out|] eqn:Hloop;
    [|left; reflexivity].
  simpl. right. exists r, items.
  destruct (loop_inv items [] out Hloop) as (rows & -> & Hrows).
  split; [reflexivity|]. split; [exact Hst|]. split; [exact Hjson|].
  exact Hrows.
Qed.

End LiveRowsMore.

(** X5.  A snapshot is never partial: it is empty, or the response was
    accepted and decoded to an object and the frame has exactly one row for
    each entry of that object, in the order of the entries, with the key as
    [id] and the key in upper case as [ticker]. *)
Theorem snapshot_one_row_per_entry :
  forall (f : string -> option Q) (requests_get : Http.client value)
         (coin_ids : list string),
    Live.fetch_live_prices f requests_get coin_ids = []
    \/ exists r items,
         requests_get Live.url (Live.params coin_ids) 10%Z = Ok r
         /\ Http.json r = Ok (VDict items)
         /\ map Live.id (Live.fetch_live_prices f requests_get coin_ids)
            = map fst items
         /\ map Live.ticker (Live.fetch_live_prices f requests_get coin_ids)
            = map (fun e => upper (fst e)) items.
Proof.
  intros f requests_get coin_ids.
  destruct (fetch_live_prices_inv f requests_get coin_ids)
    as [Hempty|(r & items & Hget & _ & Hjson & Hrows)]; [left; exact Hempty|].
  right. exists r, items. split; [exact Hget|]. split; [exact Hjson|].
  clear Hget Hjson.
  generalize dependent (Live.fetch_live_prices f requests_get coin_ids).
  intros rows Hrows.
  induction Hrows as [|[t m] row items' rows' Hrow _ IH]; [split; reflexivity|].
  destruct (entry_inv f t m row Hrow) as (Hid & Hticker & _).
  destruct IH as [IHid IHticker]. simpl.
  rewrite Hid, Hticker, IHid, IHticker. split; reflexivity.
Qed.

(** X6.  Every row of every snapshot is consistent with itself: its ticker
    is its id in upper case (and unchanged by a second upper-casing), its
    sparkline is the formula of the specification applied to its own price
    and change, with seven points of which the last equals the price, and
    its change is never -100, nor any other value that makes a denominator
    zero. *)
Theorem snapshot_rows_consistent :
  forall (f : string -> option Q) (requests_get : Http.client value)
         (coin_ids : list string),
    Forall (fun row =>
              Live.ticker row = upper (Live.id row)
              /\ upper (Live.ticker row) = Live.ticker row
              /\ Live.open row
                 = Spec.synthesize_sparkline (Live.last_price row)
                     (Live.change_pct row)
              /\ length (Live.open row) = 7%nat
              /\ (exists x, last (Live.open row) = Some x
                            /\ x == Live.last_price row)
              /\ Forall (fun d => ~ d == 0)
                   (Spec.denominators (Live.change_pct row))
              /\ ~ Live.change_pct row == -100)
      (Live.fetch_live_prices f requests_get coin_ids).
Proof.
  intros f requests_get coin_ids.
  destruct (fetch_live_prices_inv f requests_get coin_ids)
    as [->|(r & items & _ & _ & _ & Hrows)]; [constructor|].
  generalize dependent (Live.fetch_live_prices f requests_get coin_ids).
  intros rows Hrows.
  induction Hrows as [|[t m] row items' rows' Hrow _ IH]; constructor;
    [|exact IH].
  destruct (entry_inv f t m row Hrow) as (Hid & Hticker & Hopen & Hden).
  split; [congruence|]. split; [rewrite Hticker; apply upper_idem|].
  split; [exact Hopen|]. rewrite Hopen.
  split; [reflexivity|]. split; [apply sparkline_last|].
  split; [exact Hden|].
  intros Hcp. inversion Hden as [|d ds Hd6 _]; subst.
  apply Hd6. apply denominator_at_6. exact Hcp.
Qed.

(** X7.  An entry that has no price, and whose change, volume and market
    cap are each absent or null, still gives a row: every number of the row
    is 0 and its sparkline is the flat line at 0. *)
Theorem entry_without_numbers :
  forall (f : string -> option Q) (t : string) (fields : list (string * value)),
    dict_lookup fields "usd" = None ->
    (dict_lookup fields "usd_24h_change" = None
     \/ dict_lookup fields "usd_24h_change" = Some VNone) ->
    (dict_lookup fields "usd_24h_vol" = None
     \/ dict_lookup fields "usd_24h_vol" = Some VNone) ->
    (dict_lookup fields "usd_market_cap" = None
     \/ dict_lookup fields "usd_market_cap" = Some VNone) ->
    Live.entry f t (VDict fields)
    = Ok {| Live.id := t; Live.ticker := upper t;
            Live.last_price := 0; Live.change_pct := 0;
            Live.volume := 0; Live.market_cap := 0;
            Live.open := Spec.synthesize_sparkline 0 0 |}.
Proof.
  intros f t fields Husd Hchg Hvol Hcap. unfold Live.entry.
  rewrite !get_dict, Husd.
  destruct Hchg as [-> | ->], Hvol as [-> | ->], Hcap as [-> | ->];
    reflexivity.
Qed.

Lemma entry_without_numbers_witness :
  Live.entry Sample.no_float "sui" (VDict [("usd_24h_vol", VNone)]%string)
  = Ok {| Live.id := "sui"; Live.ticker := "SUI";
          Live.last_price := 0; Live.change_pct := 0;
          Live.volume := 0; Live.market_cap := 0;
          Live.open := Spec.synthesize_sparkline 0 0 |}.
Proof.
  apply (entry_without_numbers Sample.no_float "sui"
           [("usd_24h_vol", VNone)]%string);
    [reflexivity | left; reflexivity | right; reflexivity | left; reflexivity].
Defined.

(** ** The historical frame, continued *)

Lemma fetch_historical_inv (requests_get : Http.client Hist.payload)
    (coin_id days : string) :
  Hist.fetch_historical_market_chart requests_get coin_id days = []
  \/ exists prices vols,
       Hist.fetch_historical_market_chart requests_get coin_id days
       = Hist.ohlc prices vols.
Proof.
  unfold Hist.fetch_historical_market_chart,
    Hist.fetch_historical_market_chart_try.
  destruct (requests_get _ _ _) as [r|]; [|left; reflexivity]. simpl.
  destruct (Http.raise_for_status r); [|left; reflexivity]. simpl.
  destruct (Http.json r) as [[|p v]|]; try (left; reflexivity). simpl.
  destruct (_ || _)%bool; [left; reflexivity|].
  right. eexists _, _. reflexivity.
Qed.

(** X8.  Every bar of every returned frame is a well-formed candle: its low
    is at most its open and its close, its high is at least both, and high
    and low are each one of the two. *)
Theorem bars_are_candles :
  forall (requests_get : Http.client Hist.payload) (coin_id days : string),
    Forall (fun b =>
              Hist.low b <= Hist.open b /\ Hist.open b <= Hist.high b
              /\ Hist.low b <= Hist.close b /\ Hist.close b <= Hist.high b
              /\ (Hist.high b = Hist.open b \/ Hist.high b = Hist.close b)
              /\ (Hist.low b = Hist.open b \/ Hist.low b = Hist.close b))
      (Hist.fetch_historical_market_chart requests_get coin_id days).
Proof.
  intros requests_get coin_id days.
  destruct (fetch_historical_inv requests_get coin_id days)
    as [->|(prices & vols & ->)]; [constructor|].
  rewrite ohlc_rowwise, List.Forall_forall. intros b Hb.
  destruct (bars_sound _ _ _ _ Hb)
    as (j & row & _ & _ & _ & _ & _ & Hhigh & Hlow).
  rewrite Hhigh, Hlow.
  split; [apply Q.le_min_l|]. split; [apply Q.le_max_l|].
  split; [apply Q.le_min_r|]. split; [apply Q.le_max_r|].
  split.
  - unfold Qmax, GenericMinMax.gmax.
    destruct (Hist.open b ?= Hist.close b); auto.
  - unfold Qmin, GenericMinMax.gmin.
    destruct (Hist.open b ?= Hist.close b); auto.
Qed.

Lemma merge_disjoint (prices vols : list Hist.sample) :
  (forall p v, In p prices -> In v vols -> fst p <> fst v) ->
  Hist.merge prices vols = [].
Proof.
  intros Hdisj. destruct (Hist.merge prices vols) as [|row rows] eqn:E;
    [reflexivity|].
  assert (Hrow : In row (Hist.merge prices vols))
    by (rewrite E; left; reflexivity).
  apply merge_inner_join in Hrow.
  destruct Hrow as (p & v & Hp & Hv & Heq & _).
  destruct (Hdisj p v Hp Hv). symmetry. exact Heq.
Qed.

(** X9.  When no instant of the price series occurs in the volume series,
    the fetch returns the empty frame, whatever the status of the
    response. *)
Theorem disjoint_series_no_bars :
  forall (requests_get : Http.client Hist.payload) (coin_id days : string)
         (r : Http.response Hist.payload) (prices vols : list Hist.sample),
    requests_get (Hist.url coin_id) (Hist.params days) 10%Z = Ok r ->
    Http.json r = Ok (Sample.chart prices vols) ->
    (forall p v, In p prices -> In v vols -> fst p <> fst v) ->
    Hist.fetch_historical_market_chart requests_get coin_id days = [].
Proof.
  intros requests_get coin_id days r prices vols Hget Hjson Hdisj.
  destruct (Http.raise_for_status r) as [[]|e] eqn:Hst.
  - rewrite (fetch_historical_is_ohlc requests_get coin_id days r prices vols
               Hget Hst Hjson).
    unfold Hist.ohlc. rewrite (merge_disjoint prices vols Hdisj). reflexivity.
  - unfold Hist.fetch_historical_market_chart,
      Hist.fetch_historical_market_chart_try.
    rewrite Hget. simpl. rewrite Hst. reflexivity.
Qed.

Lemma bars_all (rows : list Hist.merged) :
  (forall r, In r rows -> Hist.m_close r <> None /\ Hist.m_volume r <> None) ->
  forall (i : nat) (prev : option Q),
    map Hist.index (Spec.bars i prev rows) = seq i (length rows)
    /\ map (fun b => Some (Hist.close b)) (Spec.bars i prev rows)
       = map Hist.m_close rows
    /\ map (fun b => Some (Hist.volume b)) (Spec.bars i prev rows)
       = map Hist.m_volume rows.
Proof.
  induction rows as [|r rest IH]; intros Hrows i prev;
    [repeat split; reflexivity|].
  destruct (Hrows r (or_introl eq_refl)) as [Hc Hv].
  destruct (Hist.m_close r) as [c|] eqn:Ec; [|contradiction].
  destruct (Hist.m_volume r) as [v|] eqn:Ev; [|contradiction].
  destruct (IH (fun r' H => Hrows r' (or_intror H)) (S i) (Some c))
    as (IHi & IHc & IHv).
  simpl. rewrite Ec, Ev.
  destruct prev as [p|]; simpl; rewrite IHi, IHc, IHv; repeat split.
Qed.

(** X10.  When no sample of either series is null, no joined row is
    dropped: the frame has one bar for each pair of a price sample and a
    volume sample of the same instant, labelled 0, 1, 2, ... without a gap,
    with the closes and the volumes of those pairs in their order. *)
Theorem no_null_keeps_every_row :
  forall prices vols : list Hist.sample,
    Spec.no_null prices -> Spec.no_null vols ->
    let df := Hist.merge prices vols in
    map Hist.index (Hist.ohlc prices vols) = seq 0 (length df)
    /\ map (fun b => Some (Hist.close b)) (Hist.ohlc prices vols)
       = map Hist.m_close df
    /\ map (fun b => Some (Hist.volume b)) (Hist.ohlc prices vols)
       = map Hist.m_volume df.
Proof.
  intros prices vols Hp Hv df. subst df. rewrite ohlc_rowwise.
  apply bars_all. intros r. apply merge_no_null; assumption.
Qed.

Lemma no_null_keeps_every_row_witness :
  Spec.no_null Sample.prices_123 /\ Spec.no_null Sample.prices_12
  /\ map Hist.index (Hist.ohlc Sample.prices_123 Sample.prices_12)
     = [0; 1]%nat.
Proof.
  assert (Hp : Spec.no_null Sample.prices_123)
    by (intros s [<-|[<-|[<-|[]]]]; discriminate).
  assert (Hv : Spec.no_null Sample.prices_12)
    by (intros s [<-|[<-|[]]]; discriminate).
  split; [exact Hp|]. split; [exact Hv|].
  exact (proj1 (no_null_keeps_every_row Sample.prices_123 Sample.prices_12
                  Hp Hv)).
Defined.

Lemma disjoint_series_no_bars_witness :
  Hist.fetch_historical_market_chart
    (Sample.answers (Sample.chart Sample.prices_12 [(3000%Z, Some 9)]))
    "bitcoin" "90" = [].
Proof.
  apply (disjoint_series_no_bars _ "bitcoin" "90"
           {| Http.status_code := 200;
              Http.json := Ok (Sample.chart Sample.prices_12
                                 [(3000%Z, Some 9)]) |}
           Sample.prices_12 [(3000%Z, Some 9)] eq_refl eq_refl).
  intros p v [<-|[<-|[]]] [<-|[]]; discriminate.
Defined.

Lemma bars_closes_sublist (rows : list Hist.merged) :
  forall (i : nat) (prev : option Q),
    sublist (map (fun b => Some (Hist.close b)) (Spec.bars i prev rows))
            (map Hist.m_close rows).
Proof.
  induction rows as [|r rest IH]; intros i prev; [constructor|].
  simpl. destruct (Hist.complete i _ _ _ _ _) as [b|] eqn:Hc.
  - apply complete_some in Hc. destruct Hc as (_ & _ & _ & _ & Hclose & _).
    simpl. rewrite Hclose. apply sublist_skip.
    rewrite <- Hclose. apply IH.
  - apply sublist_cons. apply IH.
Qed.

Lemma merge_closes_sublist (prices vols : list Hist.sample) :
  NoDup (map fst vols) ->
  sublist (map Hist.m_close (Hist.merge prices vols)) (map snd prices).
Proof.
  intros Hnd. induction prices as [|p ps IH]; [constructor|].
  change (Hist.merge (p :: ps) vols)
    with (map (fun v => {| Hist.date := Hist.to_datetime (fst p);
                           Hist.m_close := snd p; Hist.m_volume := snd v |})
            (List.filter (fun v => Z.eqb (fst v) (fst p)) vols)
          ++ Hist.merge ps vols).
  pose proof (filter_unique vols (fst p) Hnd) as Hlen.
  destruct (List.filter (fun v => Z.eqb (fst v) (fst p)) vols) as [|v [|v' rest]].
  - simpl. apply sublist_cons. exact IH.
  - simpl. apply sublist_skip. exact IH.
  - simpl in Hlen. lia.
Qed.

(** X11.  When no instant occurs twice in the volume series, the frame has
    at most one bar for each price sample and its bars follow the order of
    the price series: the closes of the bars are the sampled prices with
    some left out. *)
Theorem bars_follow_price_series :
  forall prices vols : list Hist.sample,
    NoDup (map fst vols) ->
    sublist (map (fun b => Some (Hist.close b)) (Hist.ohlc prices vols))
            (map snd prices)
    /\ (length (Hist.ohlc prices vols) <= length prices)%nat.
Proof.
  intros prices vols Hnd.
  assert (Hsub : sublist (map (fun b => Some (Hist.close b))
                            (Hist.ohlc prices vols))
                         (map snd prices)).
  { rewrite ohlc_rowwise.
    transitivity (map Hist.m_close (Hist.merge prices vols)).
    - apply bars_closes_sublist.
    - apply merge_closes_sublist. exact Hnd. }
  split; [exact Hsub|].
  apply sublist_length in Hsub. rewrite !length_map in Hsub. exact Hsub.
Qed.

Lemma bars_follow_price_series_witness :
  NoDup (map fst Sample.volumes_1n3)
  /\ (length (Hist.ohlc Sample.prices_123 Sample.volumes_1n3) <= 3)%nat.
Proof.
  assert (Hnd : NoDup (map fst Sample.volumes_1n3)).
  { simpl. repeat constructor; rewrite ?list_elem_of_In; simpl; lia. }
  split; [exact Hnd|].
  exact (proj2 (bars_follow_price_series Sample.prices_123
                  Sample.volumes_1n3 Hnd)).
Defined.

(** ** Plot helpers, continued *)

(** X12.  The sparkline figure always has at least two points: what is
    plotted is the two-point zero line, or the values of the input when the
    input has an attribute [iter] and at least two values. *)
Theorem build_sparkline_two_points :
  forall s : Plot.series,
    (2 <= length (Plot.y (Plot.build_sparkline s)))%nat
    /\ (Plot.y (Plot.build_sparkline s) = [0; 0]
        \/ (Plot.hasattr s "iter" = true
            /\ Plot.y (Plot.build_sparkline s) = Plot.to_list s)).
Proof.
  intros s. unfold Plot.build_sparkline. simpl Plot.y.
  destruct (Plot.hasattr s "iter"); [|split; [simpl; lia | left; reflexivity]].
  destruct (Nat.ltb_spec (length (Plot.to_list s)) 2) as [Hshort|Hlong].
  - split; [simpl; lia | left; reflexivity].
  - split; [exact Hlong | right; split; reflexivity].
Qed.

(** ** Runs of the cache *)

Section CacheRuns.

Context {K V : Type} `{Countable K}.
Variable ttl : Q.
Variable func : Q -> K -> V.

Lemma call_coherent (st : Cache.state) (args : K) (now : Q) :
  Session.coherent func st ->
  Session.coherent func (snd (Cache.call ttl func args now st)).
Proof.
  intros Hst. unfold Cache.call.
  destruct (Cache.store st !! args) as [e|];
    [destruct (Cache.fresh ttl now e); [exact Hst|]|];
    intros k v t Hk; simpl in Hk |- *;
    (destruct (decide (args = k)) as [->|Hne];
     [rewrite lookup_insert_eq in Hk; injection Hk as <- <-;
      split; [reflexivity | left; reflexivity]
     |rewrite lookup_insert_ne in Hk by exact Hne;
      destruct (Hst k v t Hk) as [Hv Hin]; split; [exact Hv | right; exact Hin]]).
Qed.

Lemma replay_coherent (calls : list (K * Q)) :
  Session.coherent func (Session.replay ttl func calls).
Proof.
  unfold Session.replay.
  assert (Hgen : forall st, Session.coherent func st ->
            Session.coherent func (fold_left
                        (fun st c => snd (Cache.call ttl func (fst c) (snd c) st))
                        calls st)).
  { induction calls as [|c cs IH]; intros st Hst; [exact Hst|].
    simpl. apply IH. apply call_coherent. exact Hst. }
  apply Hgen. intros k v t Hk. simpl in Hk.
  rewrite lookup_empty in Hk. discriminate Hk.
Qed.

(** After any sequence of calls, what a further call returns is what the
    function returned in a logged run made now or less than the
    time-to-live ago. *)
Lemma call_recent (calls : list (K * Q)) (args : K) (now : Q) :
  let after := Cache.call ttl func args now (Session.replay ttl func calls) in
  exists t,
    fst after = func t args
    /\ In (t, args) (Cache.runs (snd after))
    /\ (t = now \/ now - t < ttl).
Proof.
  intros after. subst after.
  pose proof (replay_coherent calls) as Hst.
  unfold Cache.call.
  destruct (Cache.store (Session.replay ttl func calls) !! args)
    as [[v t0]|] eqn:He.
  - destruct (Cache.fresh ttl now (v, t0)) eqn:Hfresh.
    + destruct (Hst args v t0 He) as [Hv Hin].
      exists t0. split; [exact Hv|]. split; [exact Hin|]. right.
      unfold Cache.fresh in Hfresh. simpl in Hfresh.
      destruct (Qle_bool ttl (now - t0)) eqn:E; [discriminate|].
      destruct (Qlt_le_dec (now - t0) ttl) as [Hlt|Hle]; [exact Hlt|].
      apply Qle_bool_iff in Hle. congruence.
    + exists now. split; [reflexivity|]. split; [left; reflexivity|].
      left; reflexivity.
  - exists now. split; [reflexivity|]. split; [left; reflexivity|].
    left; reflexivity.
Qed.

End CacheRuns.

(** After any sequence of calls of a decorated fetch, the frame a
    further call returns is the frame the fetch produced in a logged run at
    a time that is now or lies less than the time-to-live (60 for the
    snapshot, 3600 for the history) before now. *)
Theorem cached_frames_are_recent :
  forall (f : string -> option Q)
         (live_network : Q -> Http.client value)
         (hist_network : Q -> Http.client Hist.payload),
    (forall (calls : list (list string * Q)) (coin_ids : list string) (now : Q),
        let live := fun t ids => Live.fetch_live_prices f (live_network t) ids in
        let after := Cache.fetch_live_prices f live_network coin_ids now
                       (Session.replay 60 live calls) in
        exists t,
          fst after = live t coin_ids
          /\ In (t, coin_ids) (Cache.runs (snd after))
          /\ (t = now \/ now - t < 60))
    /\ (forall (calls : list ((string * string) * Q)) (args : string * string)
               (now : Q),
        let hist := fun t (a : string * string) =>
                      Hist.fetch_historical_market_chart (hist_network t)
                        (fst a) (snd a) in
        let after := Cache.fetch_historical_market_chart hist_network args now
                       (Session.replay 3600 hist calls) in
        exists t,
          fst after = hist t args
          /\ In (t, args) (Cache.runs (snd after))
          /\ (t = now \/ now - t < 3600)).
Proof.
  intros f live_network hist_network. split.
  - intros calls coin_ids now. apply call_recent.
  - intros calls args now. apply call_recent.
Qed.

(** ** UI components *)

Lemma charts_app (a b : list Ui.call) :
  Ui.charts (a ++ b) = Ui.charts a ++ Ui.charts b.
Proof. apply List.flat_map_app. Qed.

Lemma charts_within (i : nat) (t : list Ui.call) :
  Ui.charts (map (Ui.Within i) t) = Ui.charts t.
Proof.
  induction t as [|c t IH]; [reflexivity|].
  change (Ui.chart_of c ++ Ui.charts (map (Ui.Within i) t)
          = Ui.chart_of c ++ Ui.charts t).
  rewrite IH. reflexivity.
Qed.

Section Watchlist.

Variable fmt_2f : Q -> string.
Variable fmt_comma_2f : Q -> string.

Lemma charts_zip (row : list Live.row) :
  forall (start n : nat),
    (length row <= n)%nat ->
    Ui.charts
      (flat_map (fun cr => map (Ui.Within (fst cr))
                             (Ui.card fmt_2f fmt_comma_2f (snd cr)))
                (combine (seq start n) row))
    = map Ui.spark_of row.
Proof.
  induction row as [|r row IH]; intros start n Hlen.
  - destruct n; reflexivity.
  - destruct n as [|n]; [simpl in Hlen; lia|].
    cbn [seq combine].
    match goal with
    | |- Ui.charts (flat_map ?f (?a :: ?l)) = _ =>
        change (flat_map f (a :: l)) with (f a ++ flat_map f l)
    end.
    rewrite charts_app, charts_within.
    rewrite (IH (S start) n) by (simpl in Hlen; lia). reflexivity.
Qed.

Lemma charts_batches (n : nat) (batches : list (list Live.row)) :
  Forall (fun b => (length b <= n)%nat) batches ->
  Ui.charts (flat_map (Ui.watchlist_row fmt_2f fmt_comma_2f n) batches)
  = map Ui.spark_of (concat batches).
Proof.
  induction 1 as [|b batches Hb _ IH]; [reflexivity|].
  change (flat_map ?f (b :: batches)) with (f b ++ flat_map f batches).
  rewrite charts_app, IH. simpl concat.
  rewrite List.map_app. f_equal.
  unfold Ui.watchlist_row.
  change (Ui.charts (Ui.Columns n :: ?t)) with (Ui.charts t).
  apply charts_zip. exact Hb.
Qed.

Lemma display_watchlist_charts (ticker_df : Live.DataFrame) :
  Ui.charts (Ui.display_watchlist fmt_2f fmt_comma_2f ticker_df)
  = map Ui.spark_of ticker_df.
Proof.
  unfold Ui.display_watchlist. destruct ticker_df as [|r rows]; [reflexivity|].
  cbn [Hist.empty]. cbv zeta.
  change (Ui.charts (Ui.Subheader ?s :: ?t)) with (Ui.charts t).
  rewrite charts_batches by apply batched_bounded.
  rewrite batched_flat by lia. reflexivity.
Qed.

End Watchlist.

(** X13.  The watchlist plots exactly one chart for each row of the frame,
    in the order of the rows, keyed [spark_] followed by the ticker of the
    row; batching by four and pairing with the columns lose no row.  Each of
    these charts shows the two-point zero line. *)
Theorem watchlist_one_chart_per_row :
  forall (fmt_2f fmt_comma_2f : Q -> string) (ticker_df : Live.DataFrame),
    Ui.charts (Ui.display_watchlist fmt_2f fmt_comma_2f ticker_df)
    = map Ui.spark_of ticker_df
    /\ Forall (fun rec =>
                 exists fig, fst (Ui.spark_of rec) = Ui.Sparkline fig
                             /\ Plot.y fig = [0; 0])
         ticker_df.
Proof.
  intros fmt_2f fmt_comma_2f ticker_df.
  split; [apply display_watchlist_charts|].
  rewrite List.Forall_forall. intros rec _.
  eexists. split; reflexivity.
Qed.

(** ** The symbol selector *)

Lemma dict_item_set (d : list (string * string)) (k v k' : string) :
  Ui.dict_item (Ui.dict_set d k v) k'
  = if String.eqb k k' then Some v else Ui.dict_item d k'.
Proof.
  induction d as [|[k0 v0] rest IH]; simpl.
  - reflexivity.
  - destruct (String.eqb_spec k0 k) as [->|Hk0]; simpl.
    + destruct (String.eqb k k'); reflexivity.
    + rewrite IH. destruct (String.eqb_spec k0 k') as [->|Hk0'];
        [|reflexivity].
      destruct (String.eqb_spec k k') as [->|_]; [contradiction | reflexivity].
Qed.

Lemma dict_set_keys (d : list (string * string)) (k v k' : string) :
  In k' (map fst (Ui.dict_set d k v)) <-> k' = k \/ In k' (map fst d).
Proof.
  induction d as [|[k0 v0] rest IH]; simpl.
  - intuition.
  - destruct (String.eqb_spec k0 k) as [->|Hk0]; simpl.
    + intuition.
    + rewrite IH. intuition.
Qed.

Lemma dict_set_nodup (d : list (string * string)) (k v : string) :
  NoDup (map fst d) -> NoDup (map fst (Ui.dict_set d k v)).
Proof.
  induction d as [|[k0 v0] rest IH]; simpl; intros Hnd.
  - constructor; [intros Habs; inversion Habs | constructor].
  - inversion Hnd as [|? ? Hnotin Hnd']; subst.
    destruct (String.eqb_spec k0 k) as [->|Hk0]; simpl.
    + constructor; assumption.
    + constructor; [|apply IH; exact Hnd'].
      rewrite list_elem_of_In, dict_set_keys.
      rewrite list_elem_of_In in Hnotin. intros [->|Hin]; contradiction.
Qed.

Lemma dict_item_in (d : list (string * string)) (k : string) :
  In k (map fst d) -> exists v, Ui.dict_item d k = Some v.
Proof.
  induction d as [|[k0 v0] rest IH]; simpl; [intros []|].
  intros Hin. destruct (String.eqb_spec k0 k) as [->|Hk0]; [eauto|].
  destruct Hin as [Heq|Hin]; [contradiction | apply IH; exact Hin].
Qed.

Lemma ticker_to_id_snoc (df : Live.DataFrame) (r : Live.row) :
  Ui.ticker_to_id (df ++ [r])
  = Ui.dict_set (Ui.ticker_to_id df) (Live.ticker r) (Live.id r).
Proof. unfold Ui.ticker_to_id. rewrite List.fold_left_app. reflexivity. Qed.

(** The dict maps a ticker to the id of the last row that has it. *)
Lemma ticker_to_id_item (df : Live.DataFrame) (t : string) :
  Ui.dict_item (Ui.ticker_to_id df) t
  = option_map Live.id
      (List.find (fun r => String.eqb (Live.ticker r) t) (rev df)).
Proof.
  induction df as [|r df IH] using rev_ind; [reflexivity|].
  rewrite ticker_to_id_snoc, dict_item_set, List.rev_unit. simpl.
  destruct (String.eqb (Live.ticker r) t); [reflexivity | exact IH].
Qed.

Lemma ticker_to_id_keys (df : Live.DataFrame) :
  NoDup (map fst (Ui.ticker_to_id df))
  /\ forall t, In t (map fst (Ui.ticker_to_id df))
               <-> exists r, In r df /\ Live.ticker r = t.
Proof.
  induction df as [|r df [IHnd IHin]] using rev_ind.
  - split; [constructor|]. intros t. simpl. split; [intros [] | intros (r & [] & _)].
  - rewrite ticker_to_id_snoc. split; [apply dict_set_nodup; exact IHnd|].
    intros t. rewrite dict_set_keys, IHin. split.
    + intros [->|(r' & Hr' & Ht)].
      * exists r. split; [apply List.in_or_app; right; left|]; reflexivity.
      * exists r'. split; [apply List.in_or_app; left; exact Hr' | exact Ht].
    + intros (r' & Hr' & Ht). apply List.in_app_or in Hr'.
      destruct Hr' as [Hr'|[->|[]]]; [right; eauto | left; symmetry; exact Ht].
Qed.

(** X14.  The symbol selector offers each ticker of the frame once, and a
    ticker selects the id of the last row that carries it: when the ids of
    two rows differ only by the case of their letters, the later row
    shadows the earlier one. *)
Theorem ticker_to_id_last_row_wins :
  forall (ticker_df : Live.DataFrame),
    NoDup (map fst (Ui.ticker_to_id ticker_df))
    /\ (forall t, In t (map fst (Ui.ticker_to_id ticker_df))
                  <-> exists r, In r ticker_df /\ Live.ticker r = t)
    /\ (forall t,
          Ui.dict_item (Ui.ticker_to_id ticker_df) t
          = option_map Live.id
              (List.find (fun r => String.eqb (Live.ticker r) t)
                         (rev ticker_df))).
Proof.
  intros ticker_df. destruct (ticker_to_id_keys ticker_df) as [Hnd Hin].
  split; [exact Hnd|]. split; [exact Hin|].
  intros t. apply ticker_to_id_item.
Qed.

Section SymbolHistory.

Variable choice : string -> list string -> option string.
Variable fetch_historical_market_chart : string -> string -> Hist.DataFrame.

Lemma display_symbol_history_done (ticker_df : Live.DataFrame) (days : Z) :
  (forall t,
      choice "Select Symbol:" (map fst (Ui.ticker_to_id ticker_df)) = Some t ->
      In t (map fst (Ui.ticker_to_id ticker_df))) ->
  exists trace,
    Ui.display_symbol_history choice fetch_historical_market_chart
      ticker_df days = Ui.Done trace.
Proof.
  intros Hchoice. unfold Ui.display_symbol_history.
  destruct (Hist.empty ticker_df); [eauto|]. cbv zeta.
  destruct (choice _ _) as [t|] eqn:Ht; [|eauto].
  destruct (String.eqb t ""); [eauto|].
  destruct (dict_item_in _ t (Hchoice t eq_refl)) as [coin_id ->].
  destruct (Hist.empty _); eauto.
Qed.

End SymbolHistory.

(** X15.  The symbol history never stops on a [KeyError] as long as the
    select box returns nothing or one of the options it was given; and when
    it returns a non-empty ticker of the frame, the history that is fetched
    is that of the id of the last row with this ticker, for the number of
    days written in decimal, shown as a candlestick chart keyed
    [candlestick_] followed by the ticker, or as a warning when the history
    is empty. *)
Theorem symbol_history_of_selected :
  forall (choice : string -> list string -> option string)
         (fetch : string -> string -> Hist.DataFrame)
         (ticker_df : Live.DataFrame) (days : Z),
    let options := map fst (Ui.ticker_to_id ticker_df) in
    (forall t, choice "Select Symbol:" options = Some t -> In t options) ->
    (exists trace,
        Ui.display_symbol_history choice fetch ticker_df days = Ui.Done trace)
    /\ (forall t r,
          choice "Select Symbol:" options = Some t ->
          t <> ""%string ->
          List.find (fun r => String.eqb (Live.ticker r) t) (rev ticker_df)
          = Some r ->
          let df := fetch (Live.id r) (pretty days) in
          Ui.display_symbol_history choice fetch ticker_df days
          = Ui.Done
              [ Ui.Subheader "Symbol History";
                Ui.Selectbox "Select Symbol:" options;
                if Hist.empty df
                then Ui.Warning ("No historical data for " ++ t)
                else Ui.PlotlyChart
                       (Ui.Candlestick (Chart.build_candlestick_figure df))
                       ("candlestick_" ++ t) ]).
Proof.
  intros choice fetch ticker_df days options Hchoice. subst options.
  split; [apply display_symbol_history_done; exact Hchoice|].
  intros t r Ht Hne Hfind df. subst df.
  unfold Ui.display_symbol_history.
  destruct ticker_df as [|r0 rows] eqn:Edf;
    [destruct (Hchoice t Ht)|]. rewrite <- Edf in *.
  assert (Hempty : Hist.empty ticker_df = false) by (rewrite Edf; reflexivity).
  rewrite Hempty. cbv zeta. rewrite Ht.
  destruct (String.eqb_spec t "") as [->|_]; [contradiction|].
  rewrite ticker_to_id_item, Hfind. simpl option_map. cbv iota.
  destruct (Hist.empty (fetch (Live.id r) (pretty days))); reflexivity.
Qed.

Lemma symbol_history_of_selected_witness :
  exists trace,
    Ui.display_symbol_history Demo.first_option Demo.history
      [Demo.bitcoin_row] 90 = Ui.Done trace.
Proof.
  apply (proj1 (symbol_history_of_selected Demo.first_option Demo.history
                  [Demo.bitcoin_row] 90
                  (fun t Ht => match Ht in _ = o
                                     return match o with
                                            | Some t' => In t' ["BITCOIN"%string]
                                            | None => True
                                            end
                               with eq_refl => or_introl eq_refl end))).
Defined.

(** ** The page *)

Section Page.

Variable fmt_2f : Q -> string.
Variable fmt_comma_2f : Q -> string.
Variable choice : string -> list string -> option string.
Variable fetch_live_prices : list string -> Live.DataFrame.
Variable fetch_historical_market_chart : string -> string -> Hist.DataFrame.

Lemma display_symbol_history_charts (ticker_df : Live.DataFrame) (days : Z)
    (trace : list Ui.call) :
  Ui.display_symbol_history choice fetch_historical_market_chart
    ticker_df days = Ui.Done trace ->
  (length (Ui.charts trace) <= 1)%nat.
Proof.
  unfold Ui.display_symbol_history.
  destruct (Hist.empty ticker_df); [intros [= <-]; simpl; lia|]. cbv zeta.
  destruct (choice _ _) as [t|]; [|intros [= <-]; simpl; lia].
  destruct (String.eqb t ""); [intros [= <-]; simpl; lia|].
  destruct (Ui.dict_item _ t); [|discriminate].
  destruct (Hist.empty _); intros [= <-]; simpl; lia.
Qed.

Lemma quick_metrics_charts (ticker_df : Live.DataFrame) :
  Ui.charts (Ui.quick_metrics fmt_2f fmt_comma_2f ticker_df) = [].
Proof. destruct ticker_df; reflexivity. Qed.

Lemma display_overview_charts (df : Live.DataFrame) :
  Ui.charts (Ui.display_overview df) = [].
Proof. destruct df; reflexivity. Qed.

Lemma main_done :
  (forall options t,
      choice "Select Symbol:" options = Some t -> In t options) ->
  exists trace rest,
    Ui.main fmt_2f fmt_comma_2f choice fetch_live_prices
      fetch_historical_market_chart = Ui.Done trace
    /\ Ui.charts trace = map Ui.spark_of (fetch_live_prices COIN_IDS) ++ rest
    /\ (length rest <= 1)%nat.
Proof.
  intros Hchoice. unfold Ui.main. cbv zeta.
  destruct (display_symbol_history_done choice fetch_historical_market_chart
              (fetch_live_prices COIN_IDS) 90 (Hchoice _)) as [t Ht].
  rewrite Ht. eexists _, (Ui.charts t). split; [reflexivity|].
  split; [|exact (display_symbol_history_charts _ _ _ Ht)].
  rewrite !charts_app, !charts_within, !charts_app.
  rewrite display_watchlist_charts, quick_metrics_charts,
    display_overview_charts.
  simpl. rewrite !app_nil_r. reflexivity.
Qed.

End Page.

(** X16.  When the snapshot is empty, as it is whenever the request fails,
    the page still renders to its end and shows placeholders only: no live
    data, no symbols, no quick metrics, no data, and no chart at all. *)
Theorem page_without_data :
  forall (fmt_2f fmt_comma_2f : Q -> string)
         (choice : string -> list string -> option string)
         (fetch_hist : string -> string -> Hist.DataFrame)
         (f : string -> option Q) (requests_get : Http.client value),
    Live.fetch_live_prices f requests_get COIN_IDS = [] ->
    Ui.main fmt_2f fmt_comma_2f choice
      (Live.fetch_live_prices f requests_get) fetch_hist
    = Ui.Done
        [ Ui.Title "Crypto Dashboard, Live Prices";
          Ui.ColumnsWeighted [5 # 2; 1];
          Ui.Within 0 (Ui.Subheader "Watchlist");
          Ui.Within 0 (Ui.Info "No live data");
          Ui.Within 0 Ui.Divider;
          Ui.Within 0 (Ui.Subheader "Symbol History");
          Ui.Within 0 (Ui.Info "No symbols");
          Ui.Within 1 (Ui.Subheader "Quick Metrics");
          Ui.Within 1 Ui.Divider;
          Ui.Within 1 (Ui.Subheader "Overview Table");
          Ui.Within 1 (Ui.Info "No data");
          Ui.Markdown
            "Data provided by [CoinGecko](https://www.coingecko.com/)" ].
Proof.
  intros fmt_2f fmt_comma_2f choice fetch_hist f requests_get Hempty.
  unfold Ui.main. cbv zeta. rewrite Hempty. reflexivity.
Qed.

Lemma page_without_data_witness :
  Live.fetch_live_prices Sample.no_float Sample.down COIN_IDS = []
  /\ Ui.charts
       (Ui.trace_of
          (Ui.main Demo.no_format Demo.no_format Demo.first_option
             (Live.fetch_live_prices Sample.no_float Sample.down)
             Demo.history)) = [].
Proof.
  split; [reflexivity|].
  rewrite (page_without_data Demo.no_format Demo.no_format Demo.first_option
             Demo.history Sample.no_float Sample.down eq_refl).
  reflexivity.
Defined.

(** X17.  As long as the select box returns nothing or one of its options,
    the page renders to its end, and the charts it plots are one sparkline
    for each row of the snapshot, in their order, followed by at most one
    candlestick chart. *)
Theorem page_renders :
  forall (fmt_2f fmt_comma_2f : Q -> string)
         (choice : string -> list string -> option string)
         (fetch_live : list string -> Live.DataFrame)
         (fetch_hist : string -> string -> Hist.DataFrame),
    (forall options t,
        choice "Select Symbol:" options = Some t -> In t options) ->
    exists trace rest,
      Ui.main fmt_2f fmt_comma_2f choice fetch_live fetch_hist = Ui.Done trace
      /\ Ui.charts trace = map Ui.spark_of (fetch_live COIN_IDS) ++ rest
      /\ (length rest <= 1)%nat.
Proof.
  intros fmt_2f fmt_comma_2f choice fetch_live fetch_hist Hchoice.
  apply main_done. exact Hchoice.
Qed.

Lemma first_option_offered (options : list string) (t : string) :
  Demo.first_option "Select Symbol:" options = Some t -> In t options.
Proof.
  destruct options as [|o os]; [discriminate|].
  intros [= <-]. left. reflexivity.
Defined.

Lemma page_renders_witness :
  exists trace rest,
    Ui.main Demo.no_format Demo.no_format Demo.first_option
      (fun _ => [Demo.bitcoin_row]) Demo.history = Ui.Done trace
    /\ Ui.charts trace = map Ui.spark_of [Demo.bitcoin_row] ++ rest
    /\ (length rest <= 1)%nat.
Proof.
  exact (page_renders Demo.no_format Demo.no_format Demo.first_option
           (fun _ => [Demo.bitcoin_row]) Demo.history first_option_offered).
Defined.

(** ** The grid of the watchlist *)

Lemma chart_columns_app (a b : list Ui.call) :
  Ui.chart_columns (a ++ b) = Ui.chart_columns a ++ Ui.chart_columns b.
Proof. apply List.flat_map_app. Qed.

Lemma columns_calls_app (a b : list Ui.call) :
  Ui.columns_calls (a ++ b) = (Ui.columns_calls a + Ui.columns_calls b)%nat.
Proof.
  unfold Ui.columns_calls. rewrite List.filter_app, List.length_app.
  reflexivity.
Qed.

(** The columns of consecutive batches, when all but a last shorter batch
    are full: the positions counted modulo the batch size. *)
Lemma batched_positions {A : Type} (n : nat) (xs : list A) :
  (0 < n)%nat ->
  forall s : nat,
    (s mod n = 0)%nat ->
    flat_map (fun b : list A => seq 0 (length b)) (batched xs n)
    = map (fun k => (k mod n)%nat) (seq s (length xs)).
Proof.
  intros Hn. induction xs as [xs IH] using (batched_ind n). intros s Hs.
  rewrite batched_step. destruct (firstn n xs) as [|x batch] eqn:Hb.
  - destruct (firstn_nil_inv xs n Hb) as [->| ->]; [reflexivity | lia].
  - change (seq 0 (length (x :: batch))
            ++ flat_map (fun b : list A => seq 0 (length b))
                 (batched (skipn n xs) n)
            = map (fun k => (k mod n)%nat) (seq s (length xs))).
    assert (Hfirst : length (x :: batch) = Nat.min n (length xs))
      by (rewrite <- Hb; apply List.length_firstn).
    assert (Hsplit : length xs
                     = (length (x :: batch) + length (skipn n xs))%nat)
      by (rewrite Hfirst, List.length_skipn; lia).
    rewrite Hsplit, List.seq_app, List.map_app. f_equal.
    + assert (Hle : (length (x :: batch) <= n)%nat) by lia.
      generalize dependent (length (x :: batch)). intros m _ _ Hm.
      clear - Hs Hm Hn. revert Hm.
      assert (Hgen : forall i, (i + m <= n)%nat ->
                seq i m = map (fun k => (k mod n)%nat) (seq (s + i) m)).
      { induction m as [|m IHm]; intros i Hi; [reflexivity|].
        simpl. f_equal.
        - rewrite Nat.Div0.add_mod, Hs by lia. simpl.
          rewrite Nat.Div0.mod_mod by lia. symmetry. apply Nat.mod_small. lia.
        - rewrite (IHm (S i)) by lia. f_equal. f_equal. lia. }
      intros Hm. rewrite (Hgen 0%nat) by lia. f_equal. f_equal. lia.
    + destruct (Nat.le_gt_cases n (length xs)) as [Hfull|Hshort].
      * rewrite (IH _ (skipn_shorter xs n x batch Hb) (s + n)%nat).
        -- f_equal. f_equal. lia.
        -- rewrite Nat.Div0.add_mod, Hs, Nat.Div0.mod_same by lia.
           apply Nat.Div0.mod_0_l.
      * rewrite List.skipn_all2 by lia.
        rewrite (proj2 (batched_none [] n)) by (left; reflexivity).
        reflexivity.
Qed.

Section Grid.

Variable fmt_2f : Q -> string.
Variable fmt_comma_2f : Q -> string.

Lemma card_columns (i : nat) (rec : Live.row) :
  Ui.chart_columns (map (Ui.Within i) (Ui.card fmt_2f fmt_comma_2f rec)) = [i]
  /\ Ui.columns_calls (map (Ui.Within i) (Ui.card fmt_2f fmt_comma_2f rec))
     = 0%nat.
Proof. split; reflexivity. Qed.

Lemma zip_columns (row : list Live.row) :
  forall (start n : nat),
    (length row <= n)%nat ->
    let cards := flat_map (fun cr => map (Ui.Within (fst cr))
                                       (Ui.card fmt_2f fmt_comma_2f (snd cr)))
                          (combine (seq start n) row) in
    Ui.chart_columns cards = seq start (length row)
    /\ Ui.columns_calls cards = 0%nat.
Proof.
  induction row as [|r row IH]; intros start n Hlen cards; subst cards.
  - destruct n; split; reflexivity.
  - destruct n as [|n]; [simpl in Hlen; lia|].
    cbn [seq combine].
    match goal with
    | |- context [flat_map ?f (?a :: ?l)] =>
        change (flat_map f (a :: l)) with (f a ++ flat_map f l)
    end.
    rewrite chart_columns_app, columns_calls_app.
    destruct (IH (S start) n) as [IHc IHn]; [simpl in Hlen; lia|].
    rewrite IHc, IHn.
    destruct (card_columns start r) as [Hc Hn].
    cbn [fst snd]. rewrite Hc, Hn. split; reflexivity.
Qed.

Lemma batches_columns (n : nat) (batches : list (list Live.row)) :
  Forall (fun b => (length b <= n)%nat) batches ->
  let trace := flat_map (Ui.watchlist_row fmt_2f fmt_comma_2f n) batches in
  Ui.chart_columns trace
  = flat_map (fun b : list Live.row => seq 0 (length b)) batches
  /\ Ui.columns_calls trace = length batches.
Proof.
  intros Hall trace. subst trace.
  induction Hall as [|b batches Hb _ [IHc IHn]]; [split; reflexivity|].
  change (flat_map ?f (b :: batches)) with (f b ++ flat_map f batches).
  rewrite chart_columns_app, columns_calls_app, IHc, IHn.
  destruct (zip_columns b 0 n Hb) as [Hc Hn].
  unfold Ui.watchlist_row.
  change (Ui.chart_columns (Ui.Columns n :: ?t)) with (Ui.chart_columns t).
  change (Ui.columns_calls (Ui.Columns n :: ?t))
    with (S (Ui.columns_calls t)).
  rewrite Hc, Hn. split; reflexivity.
Qed.

End Grid.

(** X18.  The watchlist is a grid of four columns filled row by row: the
    chart of the row at position [k] of the frame is drawn in column
    [k mod 4], and [st.columns(4)] is called once for every four rows,
    rounded up. *)
Theorem watchlist_grid :
  forall (fmt_2f fmt_comma_2f : Q -> string) (ticker_df : Live.DataFrame),
    let trace := Ui.display_watchlist fmt_2f fmt_comma_2f ticker_df in
    Ui.chart_columns trace
    = map (fun k => (k mod 4)%nat) (seq 0 (length ticker_df))
    /\ Ui.columns_calls trace = Nat.div (length ticker_df + 3) 4.
Proof.
  intros fmt_2f fmt_comma_2f ticker_df trace. subst trace.
  unfold Ui.display_watchlist. destruct ticker_df as [|r rows] eqn:Edf;
    [split; reflexivity|].
  assert (Hempty : Hist.empty (r :: rows) = false) by reflexivity.
  rewrite <- Edf in *. clear Edf. rewrite Hempty. cbv zeta.
  change (Ui.chart_columns (Ui.Subheader ?s :: ?t)) with (Ui.chart_columns t).
  change (Ui.columns_calls (Ui.Subheader ?s :: ?t)) with (Ui.columns_calls t).
  destruct (batches_columns fmt_2f fmt_comma_2f 4 (batched ticker_df 4)
              (batched_bounded ticker_df 4)) as [Hc Hn].
  rewrite Hc, Hn. split.
  - apply batched_positions; [lia | reflexivity].
  - rewrite batched_length by lia. f_equal. lia.
Qed.

(** ** The order of the volume series *)

Lemma filter_permutation {A : Type} (f : A -> bool) (l l' : list A) :
  Permutation l l' -> Permutation (List.filter f l) (List.filter f l').
Proof.
  induction 1 as [|a l l' _ IH|a b l|l l' l'' _ IH1 _ IH2]; simpl.
  - constructor.
  - destruct (f a); [constructor|]; exact IH.
  - destruct (f a), (f b); try reflexivity. constructor.
  - etransitivity; eassumption.
Qed.

Lemma matches_permutation (vols vols' : list Hist.sample) (t : Z) :
  NoDup (map fst vols) -> Permutation vols vols' ->
  List.filter (fun v => Z.eqb (fst v) t) vols
  = List.filter (fun v => Z.eqb (fst v) t) vols'.
Proof.
  intros Hnd Hperm.
  pose proof (filter_unique vols t Hnd) as Hlen.
  pose proof (filter_permutation (fun v => Z.eqb (fst v) t) _ _ Hperm) as Hf.
  destruct (List.filter (fun v => Z.eqb (fst v) t) vols) as [|v [|v' rest]].
  - symmetry. apply Permutation_nil. exact Hf.
  - symmetry. apply Permutation_length_1_inv. exact Hf.
  - simpl in Hlen. lia.
Qed.

(** X19.  When no instant occurs twice in the volume series, the order of
    its samples does not matter: any rearrangement of the volume series
    gives the same frame.  The bars are ordered by the price series alone. *)
Theorem volume_order_irrelevant :
  forall (prices vols vols' : list Hist.sample),
    NoDup (map fst vols) -> Permutation vols vols' ->
    Hist.ohlc prices vols = Hist.ohlc prices vols'.
Proof.
  intros prices vols vols' Hnd Hperm.
  assert (Hmerge : Hist.merge prices vols = Hist.merge prices vols').
  { unfold Hist.merge, Hist.to_datetime. apply List.flat_map_ext. intros p.
    rewrite (matches_permutation vols vols' (fst p) Hnd Hperm). reflexivity. }
  unfold Hist.ohlc. rewrite Hmerge. reflexivity.
Qed.

Lemma volume_order_irrelevant_witness :
  NoDup (map fst Sample.volumes_1n3)
  /\ Hist.ohlc Sample.prices_123 Sample.volumes_1n3
     = Hist.ohlc Sample.prices_123 (rev Sample.volumes_1n3).
Proof.
  assert (Hnd : NoDup (map fst Sample.volumes_1n3)).
  { simpl. repeat constructor; rewrite ?list_elem_of_In; simpl; lia. }
  split; [exact Hnd|].
  apply (volume_order_irrelevant Sample.prices_123 Sample.volumes_1n3
           (rev Sample.volumes_1n3) Hnd).
  apply Permutation_rev.
Defined.
